(** * gps_parser: GPX track to QGroundControl plan

    A shallow embedding of [src/gps_parser.py] and the properties of its
    three stages: the track reader [parse_gpx], the bounding-box filter
    [filter_coords_by_bbox] and the plan builder [create_plan_json],
    together with the command-line driver [main].

    Python values are modelled as follows.
    - [float] is an IEEE 754 value ([spec_float] of the standard library);
      the program only parses, copies and compares floats, and the
      comparisons are those of [SFcompare] (every comparison with NaN is
      false).
    - [int] is [Z]; [str] is [string]; a list is a [list]; a [dict] built by
      the program is an association list in insertion order, the attribute
      dictionary of an XML element is a [gmap].
    - An exception is a value of [exn]; a computation that may raise is in
      the monad [res]. *)

From Stdlib Require Import ZArith List Ascii String Floats.SpecFloat Lia.
From stdpp Require Import base option list gmap strings.

Open Scope Z_scope.
Set Warnings "-register-all".

(** ** Python runtime fragments *)

Module Py.

Abbreviation float := spec_float.

(** [a < b], [a <= b] and [a > b] on floats. *)
Definition flt (a b : float) : bool := SFltb a b.
Definition fle (a b : float) : bool := SFleb a b.
Definition fgt (a b : float) : bool := SFltb b a.

Definition is_nan (a : float) : bool :=
  match a with S754_nan => true | _ => false end.

(** The builtins [min(a, b)] and [max(a, b)]: the first argument is kept
    unless the second compares strictly below (resp. above) it. *)
Definition min (a b : float) : float := if flt b a then b else a.
Definition max (a b : float) : float := if fgt b a then b else a.

(** [float(n)] for a small integer literal, rounded to binary64. *)
Definition float_of_Z (n : Z) : float := binary_normalize 53 1024 n 0 false.

(** The [OSError]s that opening, writing or closing a file can raise: three
    named subclasses, and [OtherOSError] for every other one (a full
    device, a path through a file, ...). *)
Inductive oserror :=
| FileNotFoundError
| PermissionError
| IsADirectoryError
| OtherOSError.

Inductive exn :=
| ParseError
| OSError (k : oserror)
| KeyError
| ValueError
| IndexError
| LookupError
| SystemExit (code : Z).

Inductive res (A : Type) :=
| Ret (a : A)
| Raise (e : exn).
Arguments Ret {A} a.
Arguments Raise {A} e.

#[export] Instance res_ret : MRet res := fun A a => Ret a.
#[export] Instance res_bind : MBind res :=
  fun A B f m => match m with Ret a => f a | Raise e => Raise e end.

(** [try: m  except <classes>: h] where [catches] decides the classes. *)
Definition try_except {A} (m : res A) (catches : exn -> bool) (h : res A)
  : res A :=
  match m with
  | Ret a => Ret a
  | Raise e => if catches e then h else Raise e
  end.

Definition is_ValueError (e : exn) : bool :=
  match e with ValueError => true | _ => false end.
Definition is_KeyError (e : exn) : bool :=
  match e with KeyError => true | _ => false end.
Definition is_ParseError (e : exn) : bool :=
  match e with ParseError => true | _ => false end.
Definition is_FileNotFoundError (e : exn) : bool :=
  match e with OSError FileNotFoundError => true | _ => false end.
(** [IOError] is an alias of [OSError]. *)
Definition is_IOError (e : exn) : bool :=
  match e with OSError _ => true | _ => false end.

Definition sys_exit {A} (code : Z) : res A := Raise (SystemExit code).

(** [len(l)]. *)
Definition len {A} (l : list A) : Z := Z.of_nat (length l).

(** [l[i]] for an integer index: negative indices count from the end. *)
Definition getitem {A} (l : list A) (i : Z) : res A :=
  let j := if i <? 0 then i + len l else i in
  if j <? 0 then Raise IndexError
  else match l !! Z.to_nat j with
       | Some x => Ret x
       | None => Raise IndexError
       end.

(** Number of elements of [range(lo, hi, step)] for a non-zero step. *)
Definition range_length (lo hi step : Z) : Z :=
  if (0 <? step) && (lo <? hi) then 1 + (hi - 1 - lo) / step
  else if (step <? 0) && (hi <? lo) then 1 + (lo - 1 - hi) / (- step)
  else 0.

(** [range(start, stop, step)], as the list of the values it yields. *)
Definition range (start stop step : Z) : res (list Z) :=
  if step =? 0 then Raise ValueError
  else Ret ((fun k => start + Z.of_nat k * step)
              <$> seq 0 (Z.to_nat (range_length start stop step))).

(** [for x in xs: body], the loop state threaded through the iterations;
    an exception leaving the body ends the loop. *)
Fixpoint for_each {A S} (xs : list A) (body : S -> A -> res S) (s : S)
  : res S :=
  match xs with
  | [] => Ret s
  | x :: xs' => s' ← body s x; for_each xs' body s'
  end.

(** *** Strings *)

(** [s.startswith(p)]. *)
Definition startswith (s p : string) : bool := String.prefix p s.

(** [sub in s]. *)
Fixpoint contains (sub s : string) : bool :=
  String.prefix sub s ||
  match s with
  | EmptyString => false
  | String _ s' => contains sub s'
  end.

(** [s.split(c)[0]] for a one-character separator [c]. *)
Fixpoint split_head (c : ascii) (s : string) : string :=
  match s with
  | EmptyString => EmptyString
  | String a s' => if Ascii.eqb a c then EmptyString
                   else String a (split_head c s')
  end.

Fixpoint lstrip (c : ascii) (s : string) : string :=
  match s with
  | EmptyString => EmptyString
  | String a s' => if Ascii.eqb a c then lstrip c s' else s
  end.

Fixpoint rstrip (c : ascii) (s : string) : string :=
  match s with
  | EmptyString => EmptyString
  | String a s' =>
      match rstrip c s' with
      | EmptyString => if Ascii.eqb a c then EmptyString
                       else String a EmptyString
      | r => String a r
      end
  end.

(** [s.strip(c)] for a one-character set [c]. *)
Definition strip (c : ascii) (s : string) : string := rstrip c (lstrip c s).

(** Truth value of a string: [if s:]. *)
Definition truthy (s : string) : bool :=
  match s with EmptyString => false | _ => true end.

End Py.
Import Py.

(** ** The fragment of [xml.etree.ElementTree] the program uses *)

Module ET.

Inductive Element :=
  mkElement (tag : string) (attrib : gmap string string)
            (text : option string) (children : list Element).

Definition tag (e : Element) : string :=
  match e with mkElement t _ _ _ => t end.
Definition attrib (e : Element) : gmap string string :=
  match e with mkElement _ a _ _ => a end.
Definition text (e : Element) : option string :=
  match e with mkElement _ _ x _ => x end.
Definition children (e : Element) : list Element :=
  match e with mkElement _ _ _ c => c end.

(** The element and everything below it, in document order. *)
Fixpoint descendants (e : Element) : list Element :=
  match e with
  | mkElement _ _ _ cs => e :: flat_map descendants cs
  end.

(** [e.iter(t)]: the elements of [descendants e] whose tag is [t]; the
    tag ["*"] selects all of them. *)
Definition iter (e : Element) (t : string) : list Element :=
  if String.eqb t "*" then descendants e
  else List.filter (fun x => String.eqb (tag x) t) (descendants e).

(** [e.find(t)] for a plain tag name [t]: the first direct child with
    that tag, [None] when there is none. The patterns of [find] that are
    not plain names (a path, or the namespace wildcards [{*}name] and
    [{}name]) are not modelled. The program calls [find] on
    [nstag("ele")] only, which is such a pattern only for the namespace
    name [*]; on a document whose elements are all in that namespace and
    have XML names, the wildcard [{*}ele] selects the same child as the
    plain name. *)
Definition find (e : Element) (t : string) : option Element :=
  List.find (fun x => String.eqb (tag x) t) (children e).

(** What [ET.parse(path)] can do, named by what it raises: it returns a
    tree ([Parsed]), raises [ParseError] on text that the parser rejects
    ([NotWellFormed]), raises an [OSError] when the file cannot be opened
    or read ([CannotOpen]), raises [LookupError] when the XML declaration
    names an encoding that is not known ([UnknownEncoding]), or raises
    [ValueError] when it names a multi-byte encoding, which the parser does
    not support ([MultiByteEncoding]). The last two are raised whether or
    not the rest of the text is well-formed. *)
Inductive parse_outcome :=
| Parsed (root : Element)
| NotWellFormed
| CannotOpen (k : oserror)
| UnknownEncoding
| MultiByteEncoding.

(** [ET.parse(path).getroot()] as a computation. *)
Definition getroot (o : parse_outcome) : res Element :=
  match o with
  | Parsed root => Ret root
  | NotWellFormed => Raise ParseError
  | CannotOpen k => Raise (OSError k)
  | UnknownEncoding => Raise LookupError
  | MultiByteEncoding => Raise ValueError
  end.

End ET.

(** ** Values the plan is made of *)

Inductive value :=
| VNone
| VBool (b : bool)
| VInt (n : Z)
| VFloat (f : float)
| VStr (s : string)
| VList (l : list value)
| VDict (d : list (string * value)).

(** [d[k]] on a program-built dictionary. *)
Fixpoint assoc (k : string) (d : list (string * value)) : option value :=
  match d with
  | [] => None
  | (k', v) :: d' => if String.eqb k' k then Some v else assoc k d'
  end.

Definition subscript (v : value) (k : string) : option value :=
  match v with
  | VDict d => assoc k d
  | _ => None
  end.

Definition as_list (v : value) : option (list value) :=
  match v with VList l => Some l | _ => None end.

(** A track point [(lat, lon, alt)]. *)
Definition point : Type := float * float * float.
Definition lat_of (p : point) : float := p.1.1.
Definition lon_of (p : point) : float := p.1.2.
Definition alt_of (p : point) : float := p.2.

(** ** The program *)

Section GpsParser.

(** [float(s)] and [int(s)] on a string: [None] stands for the
    [ValueError] raised on text that is not a number. *)
Variable float_of_str : string -> option float.
Variable int_of_str : string -> option Z.

Definition py_float (s : string) : res float :=
  match float_of_str s with Some f => Ret f | None => Raise ValueError end.
Definition py_int (s : string) : res Z :=
  match int_of_str s with Some n => Ret n | None => Raise ValueError end.

(** [d[k]] on an attribute dictionary. *)
Definition attrib_getitem (d : gmap string string) (k : string)
  : res string :=
  match d !! k with Some v => Ret v | None => Raise KeyError end.

(** *** parse_gpx *)

(** The namespace read off the root tag (lines 22-24). *)
Definition detect_ns (root_tag : string) : option string :=
  if startswith root_tag "{" && contains "}gpx" root_tag
  then Some (strip "{" (split_head "}" root_tag))
  else None.

(** The local helper [nstag] (lines 27-30). *)
Definition nstag (ns : option string) (t : string) : string :=
  match ns with
  | Some n => if truthy n then "{" +:+ n +:+ "}" +:+ t else t
  | None => t
  end.

(** The inner [try] on the elevation text (lines 41-48). *)
Definition read_alt (ele_elem : option ET.Element) : res float :=
  let alt := S754_zero false in
  match ele_elem with
  | Some e =>
      match ET.text e with
      | Some t => try_except (py_float t) is_ValueError (Ret alt)
      | None => Ret alt
      end
  | None => Ret alt
  end.

(** The body of the outer [try] (lines 38-49), up to the [append]. *)
Definition read_trkpt (ns : option string) (trkpt : ET.Element)
  : res point :=
  lat_s ← attrib_getitem (ET.attrib trkpt) "lat";
  lat ← py_float lat_s;
  lon_s ← attrib_getitem (ET.attrib trkpt) "lon";
  lon ← py_float lon_s;
  let ele_elem := ET.find trkpt (nstag ns "ele") in
  alt ← read_alt ele_elem;
  Ret (lat, lon, alt).

(** One iteration of the loop of lines 36-55: the point is appended, or
    the iteration is skipped on [KeyError] and [ValueError]. *)
Definition trkpt_step (ns : option string) (coords : list point)
    (trkpt : ET.Element) : res (list point) :=
  try_except
    (p ← read_trkpt ns trkpt; Ret (coords ++ [p]))
    (fun e => is_KeyError e || is_ValueError e)
    (Ret coords).

(** Lines 21-57, on the root element of a parsed document. *)
Definition parse_root (root : ET.Element) : res (list point) :=
  let ns := detect_ns (ET.tag root) in
  for_each (ET.iter root (nstag ns "trkpt")) (trkpt_step ns) [].

(** [parse_gpx] (lines 11-19 and 57): [et_parse] tells what [ET.parse]
    does on each path; [None] is the failure value. The two [except]
    clauses catch [ET.ParseError] and [FileNotFoundError] only. *)
Definition parse_gpx (et_parse : string -> ET.parse_outcome)
    (gpx_path : string) : res (option (list point)) :=
  match ET.getroot (et_parse gpx_path) with
  | Ret root => coords ← parse_root root; Ret (Some coords)
  | Raise e =>
      if is_ParseError e then Ret None
      else if is_FileNotFoundError e then Ret None
      else Raise e
  end.

(** *** filter_coords_by_bbox *)

Definition filter_coords_by_bbox (coords : option (list point))
    (lat1 lon1 lat2 lon2 : float) : list point :=
  match coords with
  | None => []
  | Some coords =>
      let min_lat := Py.min lat1 lat2 in
      let max_lat := Py.max lat1 lat2 in
      let min_lon := Py.min lon1 lon2 in
      let max_lon := Py.max lon1 lon2 in
      foldl (fun filtered '(lat, lon, alt) =>
               if (fle min_lat lat && fle lat max_lat)
                  && (fle min_lon lon && fle lon max_lon)
               then filtered ++ [(lat, lon, alt)]
               else filtered)
            [] coords
  end.

(** *** create_plan_json *)

(** The dictionary of lines 105-123. *)
Definition make_item (do_jump_id : Z) (lat lon alt acceptance_radius : float)
  : value :=
  VDict [ ("AMSLAltAboveTerrain", VNone);
          ("Altitude", VFloat alt);
          ("AltitudeMode", VInt 1);
          ("autoContinue", VBool true);
          ("command", VInt 16);
          ("doJumpId", VInt do_jump_id);
          ("frame", VInt 3);
          ("params", VList [ VFloat (S754_zero false);
                             VFloat acceptance_radius;
                             VFloat (S754_zero false);
                             VNone;
                             VFloat lat;
                             VFloat lon;
                             VFloat alt ]);
          ("type", VStr "SimpleItem") ]%string.

(** The dictionary of lines 133-155. *)
Definition make_plan (items : list value) (planned_home : list value)
  : value :=
  VDict [ ("fileType", VStr "Plan");
          ("groundStation", VStr "QGroundControl");
          ("version", VInt 1);
          ("mission",
            VDict [ ("cruiseSpeed", VInt 5);
                    ("firmwareType", VInt 4);
                    ("hoverSpeed", VInt 5);
                    ("items", VList items);
                    ("plannedHomePosition", VList planned_home);
                    ("vehicleType", VInt 4);
                    ("version", VInt 2) ]);
          ("geoFence",
            VDict [ ("circles", VList []);
                    ("polygons", VList []);
                    ("version", VInt 1) ]);
          ("rallyPoints",
            VDict [ ("points", VList []);
                    ("version", VInt 1) ]) ]%string.

(** One iteration of the loop of lines 100-125 on the state
    [(items, do_jump_id)]. *)
Definition item_step (coords : list point)
    (default_alt acceptance_radius : float)
    (st : list value * Z) (i : Z) : res (list value * Z) :=
  let '(items, do_jump_id) := st in
  '(lat, lon, gpx_alt) ← getitem coords i;
  let alt := default_alt in
  let item := make_item do_jump_id lat lon alt acceptance_radius in
  Ret (items ++ [item], do_jump_id + 1).

Definition create_plan_json (coords : option (list point)) (step : Z)
    (default_alt acceptance_radius : float) : res (option value) :=
  match coords with
  | None | Some [] => Ret None
  | Some coords =>
      let items := [] in
      let do_jump_id := 1 in
      '(first_lat, first_lon, _) ← getitem coords 0;
      let planned_home :=
        [VFloat first_lat; VFloat first_lon; VFloat default_alt] in
      idx ← range 0 (len coords) step;
      '(items, do_jump_id) ←
        for_each idx (item_step coords default_alt acceptance_radius)
                 (items, do_jump_id);
      match items with
      | [] => Ret None
      | _ => Ret (Some (make_plan items planned_home))
      end
  end.

(** *** main *)

(** The files of a run: what [ET.parse] does on each path; whether
    [open(path, 'w')] raises an [OSError] ([open_error], the file is then
    left as it was); and whether, once the file is open, writing the plan
    or closing the file raises an [OSError] ([dump_error]). *)
Record world := {
  et_parse : string -> ET.parse_outcome;
  open_error : string -> option oserror;
  dump_error : string -> option oserror
}.

(** What a run does to files: [Opened path] when [open(path, 'w')] has
    created or truncated the file, [Dumped path plan] when the plan has
    been written to it in full and the file closed. *)
Inductive event :=
| Opened (path : string)
| Dumped (path : string) (plan : value).

(** Computations of [main]: exceptions, and the log of file events. *)
Definition io (A : Type) : Type := list event -> res A * list event.

#[local] Instance io_ret : MRet io := fun A a log => (Ret a, log).
#[local] Instance io_bind : MBind io :=
  fun A B f m log =>
    match m log with
    | (Ret a, log') => f a log'
    | (Raise e, log') => (Raise e, log')
    end.

Definition lift {A} (m : res A) : io A := fun log => (m, log).

Definition io_try_except {A} (m : io A) (catches : exn -> bool) (h : io A)
  : io A :=
  fun log =>
    match m log with
    | (Ret a, log') => (Ret a, log')
    | (Raise e, log') => if catches e then h log' else (Raise e, log')
    end.

(** [with open(path, 'w') as f: json.dump(plan, f, indent=4)]: the file is
    created or truncated by [open] before anything is written, so a
    failure of the dump or of the close leaves it empty or partial. *)
Definition open_dump (w : world) (path : string) (plan : value) : io unit :=
  fun log =>
    match open_error w path with
    | Some k => (Raise (OSError k), log)
    | None =>
        match dump_error w path with
        | Some k => (Raise (OSError k), log ++ [Opened path])
        | None => (Ret (), log ++ [Opened path; Dumped path plan])
        end
    end.

(** [v[k]] on a value, [KeyError] when the key is absent. *)
Definition value_getitem (v : value) (k : string) : res value :=
  match subscript v k with Some x => Ret x | None => Raise KeyError end.

(** Lines 169-180: the numeric arguments. *)
Definition read_numbers (argv : list string)
  : res (Z * float * float * float * float) :=
  try_except
    (a2 ← getitem argv 2;
     step ← py_int a2;
     if step <? 1 then sys_exit 1
     else
       a3 ← getitem argv 3; lat1 ← py_float a3;
       a4 ← getitem argv 4; lon1 ← py_float a4;
       a5 ← getitem argv 5; lat2 ← py_float a5;
       a6 ← getitem argv 6; lon2 ← py_float a6;
       Ret (step, lat1, lon1, lat2, lon2))
    is_ValueError
    (sys_exit 1).

(** Lines 205-221: the check of the plan, the write and the summary. *)
Definition save_plan (w : world) (output_plan : string)
    (plan_data : option value) : io unit :=
  match plan_data with
  | None => lift (sys_exit 4)
  | Some plan =>
      io_try_except (open_dump w output_plan plan)
                    is_IOError (lift (sys_exit 5));;
      mission ← lift (value_getitem plan "mission");
      _ ← lift (value_getitem mission "items");
      _ ← lift (value_getitem mission "plannedHomePosition");
      mret ()
  end.

(** Lines 182-203: the three stages on validated arguments. *)
Definition pipeline (w : world) (gpx_file output_plan : string) (step : Z)
    (lat1 lon1 lat2 lon2 : float) : io unit :=
  coords ← lift (parse_gpx (et_parse w) gpx_file);
  match coords with
  | None => lift (sys_exit 2)
  | Some [] => lift (sys_exit 2)
  | Some _ =>
      let coords_in_box :=
        filter_coords_by_bbox coords lat1 lon1 lat2 lon2 in
      match coords_in_box with
      | [] => lift (sys_exit 0)
      | _ =>
          plan_data ← lift (create_plan_json (Some coords_in_box) step
                              (S754_zero false) (float_of_Z 2));
          save_plan w output_plan plan_data
      end
  end.

Definition main (w : world) (argv : list string) : io unit :=
  if len argv <? 8 then lift (sys_exit 1)
  else
    gpx_file ← lift (getitem argv 1);
    output_plan ← lift (getitem argv 7);
    '(step, lat1, lon1, lat2, lon2) ← lift (read_numbers argv);
    pipeline w gpx_file output_plan step lat1 lon1 lat2 lon2.

(** The exit status of the process: [sys.exit(n)] gives [n], a normal
    return gives 0, and the interpreter ends with status 1 on any other
    exception that reaches the top level. *)
Definition exit_status (r : res unit) : Z :=
  match r with
  | Ret _ => 0
  | Raise (SystemExit code) => code
  | Raise _ => 1
  end.

(** The plans written in full, in a log of file events. *)
Definition dumped (log : list event) : list (string * value) :=
  flat_map (fun ev => match ev with
                      | Opened _ => []
                      | Dumped path plan => [(path, plan)]
                      end) log.

(** A run from the command line: exit status and file events. *)
Definition run_log (w : world) (argv : list string) : Z * list event :=
  let '(r, log) := main w argv [] in (exit_status r, log).

(** A run from the command line: exit status and the plans written. *)
Definition run (w : world) (argv : list string)
  : Z * list (string * value) :=
  let '(r, log) := main w argv [] in (exit_status r, dumped log).

End GpsParser.

(** ** Decimal literals

    A reader for the plain decimal literals used in the examples below:
    an optional minus sign and decimal digits, and for floats also [nan].
    On these strings it returns what Python's [int] and [float] return:
    [int] refuses more than 4300 digits, [float] keeps the sign of zero
    and rounds to binary64. *)

Module Literals.

Fixpoint digits (s : string) (acc : Z) : option Z :=
  match s with
  | EmptyString => Some acc
  | String c s' =>
      let d := Z.of_nat (nat_of_ascii c) - 48 in
      if (0 <=? d) && (d <=? 9) then digits s' (10 * acc + d) else None
  end.

(** A non-empty string of decimal digits. *)
Definition unsigned (s : string) : option Z :=
  match s with
  | EmptyString => None
  | _ => digits s 0
  end.

Definition int_of_str (s : string) : option Z :=
  match s with
  | String "-" s' =>
      if (String.length s' <=? 4300)%nat then Z.opp <$> unsigned s'
      else None
  | _ =>
      if (String.length s <=? 4300)%nat then unsigned s else None
  end.

Definition float_of_str (s : string) : option float :=
  if String.eqb s "nan" then Some S754_nan
  else match s with
       | String "-" s' => SFopp <$> (float_of_Z <$> unsigned s')
       | _ => float_of_Z <$> unsigned s
       end.

End Literals.

(** ** Sample data *)

Module Sample.

Definition f0 : float := S754_zero false.
Definition f1 : float := float_of_Z 1.
Definition f2 : float := float_of_Z 2.
Definition f3 : float := float_of_Z 3.
Definition f9 : float := float_of_Z 9.

(** Points [(lat, lon, alt)]. *)
Definition p11 : point := (f1, f1, f0).
Definition p22 : point := (f2, f2, f9).
Definition p33 : point := (f3, f3, f0).

(** Track documents. *)
Definition trkpt (attrs : list (string * string)) (ele : list ET.Element)
  : ET.Element :=
  ET.mkElement "trkpt" (list_to_map attrs) None ele.
Definition ele (t : option string) : ET.Element :=
  ET.mkElement "ele" ∅ t [].

(** Four track points: a complete one, one without [lon], one with a
    non-numeric [lat], and one with a non-numeric altitude text. *)
Definition segment : list ET.Element :=
  [ trkpt [("lat", "1"); ("lon", "2")] [ele (Some "9")];
    trkpt [("lat", "1")] [];
    trkpt [("lat", "north"); ("lon", "2")] [ele (Some "9")];
    trkpt [("lat", "3"); ("lon", "3")] [ele (Some "high")] ]%string.

Definition gpx_doc : ET.Element :=
  ET.mkElement "gpx" ∅ None
    [ET.mkElement "trk" ∅ None [ET.mkElement "trkseg" ∅ None segment]].

(** The same track under a root that is not named [gpx]. *)
Definition trk_doc : ET.Element :=
  ET.mkElement "trk" ∅ None [ET.mkElement "trkseg" ∅ None segment].

Definition gpx_ns : string := "http://www.topografix.com/GPX/1/1".

End Sample.

(** ** Specification vocabulary *)

(** The box condition of the filter: latitude within
    [[min(lat1,lat2), max(lat1,lat2)]] and longitude within
    [[min(lon1,lon2), max(lon1,lon2)]], both ends included. *)
Definition in_bbox (lat1 lon1 lat2 lon2 : float) (p : point) : bool :=
  (fle (Py.min lat1 lat2) (lat_of p) && fle (lat_of p) (Py.max lat1 lat2))
  && (fle (Py.min lon1 lon2) (lon_of p) && fle (lon_of p) (Py.max lon1 lon2)).

(** *** The plan *)

(** [plan['mission']['items']] and [plan['mission']['plannedHomePosition']]. *)
Definition plan_items (plan : value) : option (list value) :=
  m ← subscript plan "mission"; i ← subscript m "items"; as_list i.
Definition plan_home (plan : value) : option value :=
  m ← subscript plan "mission"; subscript m "plannedHomePosition".

(** *** The track reader *)

Section ReaderVocabulary.

Variable float_of_str : string -> option float.

(** A coordinate attribute of a track point that is present and numeric. *)
Definition coordinate (e : ET.Element) (k : string) : option float :=
  s ← ET.attrib e !! k; float_of_str s.

(** A track point with valid [lat] and [lon] attributes. *)
Definition well_formed (e : ET.Element) : bool :=
  match coordinate e "lat", coordinate e "lon" with
  | Some _, Some _ => true
  | _, _ => false
  end.

(** The altitude text of a track point when it is present and numeric. *)
Definition elevation (ns : option string) (e : ET.Element) : option float :=
  el ← ET.find e (nstag ns "ele"); t ← ET.text el; float_of_str t.

(** The point read from a well-formed track point. *)
Definition reads_as (ns : option string) (e : ET.Element) (p : point) : Prop :=
  coordinate e "lat" = Some (lat_of p)
  /\ coordinate e "lon" = Some (lon_of p)
  /\ alt_of p = default (S754_zero false) (elevation ns e).

End ReaderVocabulary.

(** *** Namespaces *)

(** The document [e] with every element put in the namespace [ns], as a
    default namespace declaration on the root does: each tag [t] becomes
    [{ns}t]; attributes and text are unchanged. *)
Fixpoint qualify (ns : string) (e : ET.Element) : ET.Element :=
  match e with
  | ET.mkElement t a x cs =>
      ET.mkElement ("{" +:+ ns +:+ "}" +:+ t) a x (map (qualify ns) cs)
  end.

(** A namespace name that the detection of [parse_gpx] reads back from a
    qualified tag: it is not empty, contains no closing brace, and has no
    opening brace at either end. *)
Definition plain_namespace (ns : string) : Prop :=
  truthy ns = true /\ split_head "}" ns = ns /\ strip "{" ns = ns.

(** *** Track points of a document *)

(** The track-point elements of a document whose tags are local names,
    in document order. *)
Definition track_points (root : ET.Element) : list ET.Element :=
  List.filter (fun x => String.eqb (ET.tag x) "trkpt") (ET.descendants root).




(** The files of the examples. *)
Definition sample_files (path : string) : ET.parse_outcome :=
  if String.eqb path "track.gpx" then ET.Parsed Sample.gpx_doc
  else if String.eqb path "track_ns.gpx"
       then ET.Parsed (qualify Sample.gpx_ns Sample.gpx_doc)
  else if String.eqb path "trk.xml" then ET.Parsed Sample.trk_doc
  else if String.eqb path "trk_ns.xml"
       then ET.Parsed (qualify Sample.gpx_ns Sample.trk_doc)
  else if String.eqb path "broken.gpx" then ET.NotWellFormed
  else if String.eqb path "locked.gpx" then ET.CannotOpen PermissionError
  else if String.eqb path "klingon.gpx" then ET.UnknownEncoding
  else ET.CannotOpen FileNotFoundError.

(** *** The driver *)

Section DriverVocabulary.

Variable float_of_str : string -> option float.
Variable int_of_str : string -> option Z.

(** The command-line argument at position [k], read as a number. *)
Definition arg_int (argv : list string) (k : nat) : option Z :=
  a ← argv !! k; int_of_str a.
Definition arg_float (argv : list string) (k : nat) : option float :=
  a ← argv !! k; float_of_str a.

(** Bad arguments: too few of them, a stride that is not an integer or is
    below 1, or a corner coordinate that is not a float. *)
Definition bad_arguments (argv : list string) : Prop :=
  len argv < 8
  \/ arg_int argv 2 = None
  \/ (exists n, arg_int argv 2 = Some n /\ n < 1)
  \/ (exists k, (3 <= k <= 6)%nat /\ arg_float argv k = None).

(** The values of a valid command line. *)
Record arguments := {
  arg_gpx_file : string;
  arg_output_plan : string;
  arg_step : Z;
  arg_lat1 : float;
  arg_lon1 : float;
  arg_lat2 : float;
  arg_lon2 : float
}.

Definition good_arguments (argv : list string) (a : arguments) : Prop :=
  8 <= len argv
  /\ argv !! 1%nat = Some (arg_gpx_file a)
  /\ argv !! 7%nat = Some (arg_output_plan a)
  /\ arg_int argv 2 = Some (arg_step a)
  /\ 1 <= arg_step a
  /\ arg_float argv 3 = Some (arg_lat1 a)
  /\ arg_float argv 4 = Some (arg_lon1 a)
  /\ arg_float argv 5 = Some (arg_lat2 a)
  /\ arg_float argv 6 = Some (arg_lon2 a).

(** The input track cannot be used: [ET.parse] raises [ParseError] or
    [FileNotFoundError], or the parsed document holds no usable track
    point. *)
Definition unusable_input (w : world) (gpx_file : string) : Prop :=
  ET.getroot (et_parse w gpx_file) = Raise ParseError
  \/ ET.getroot (et_parse w gpx_file) = Raise (OSError FileNotFoundError)
  \/ (exists root, ET.getroot (et_parse w gpx_file) = Ret root
                   /\ parse_root float_of_str root = Ret []).

(** What the write of a plan does, by what [open] and the dump raise:
    nothing when [open] raises, a created or truncated file when the dump
    or the close raises, the plan in the file otherwise. *)
Definition write_result (w : world) (output_plan : string) (plan : value)
    (log : list event) : res unit * list event :=
  match open_error w output_plan with
  | Some k => (Raise (SystemExit 5), log)
  | None =>
      match dump_error w output_plan with
      | Some k => (Raise (SystemExit 5), log ++ [Opened output_plan])
      | None =>
          (Ret (), log ++ [Opened output_plan; Dumped output_plan plan])
      end
  end.

End DriverVocabulary.

(** The world of the examples: the sample files; every output path can
    be written except [/plan], which is a directory and cannot be opened,
    and [/dev/full], which opens but has no room for the plan. *)
Definition sample_world : world :=
  {| et_parse := sample_files;
     open_error := fun path =>
       if String.eqb path "/plan" then Some IsADirectoryError else None;
     dump_error := fun path =>
       if String.eqb path "/dev/full" then Some OtherOSError else None |}.

(** Command lines on the sample world. *)
Definition sample_argv (gpx_file step lat1 lon1 lat2 lon2 out : string)
  : list string :=
  ["gps_parser.py"; gpx_file; step; lat1; lon1; lat2; lon2; out]%string.

(** *** Stride sampling *)

(** The slice [l[::step]] for a positive [step]: the first element, then
    every [step]-th one; [skip] counts the elements still to pass over. *)
Fixpoint every_from {A} (skip step : nat) (l : list A) : list A :=
  match l with
  | [] => []
  | x :: r =>
      match skip with
      | O => x :: every_from (step - 1) step r
      | S skip' => every_from skip' step r
      end
  end.

Definition every {A} (step : nat) (l : list A) : list A :=
  every_from 0 step l.

(** The waypoints of a list of selected points, numbered from 1. *)
Definition waypoints (default_alt acceptance_radius : float)
    (pts : list point) : list value :=
  imap (fun k p => make_item (Z.of_nat k + 1) (lat_of p) (lon_of p)
                             default_alt acceptance_radius) pts.

(** The horizontal position of a point. *)
Definition position (p : point) : float * float := (lat_of p, lon_of p).

(** *** Points kept by the reader *)

(** The points read from a list of candidate elements: one for each
    element that [read_trkpt] reads, in order. *)
Definition kept_points (float_of_str : string -> option float)
    (ns : option string) (cands : list ET.Element) : list point :=
  flat_map (fun e => match read_trkpt float_of_str ns e with
                     | Ret p => [p]
                     | Raise _ => []
                     end) cands.

(** ** Properties of the float comparisons *)

Section FloatOrder.

Lemma SFcompare_swap (a b : float) :
  SFcompare b a = CompOpp <$> SFcompare a b.
Proof.
  destruct a as [sa|sa| |sa ma ea], b as [sb|sb| |sb mb eb];
    try destruct sa; try destruct sb; simpl; try reflexivity.
  - rewrite (Z.compare_antisym ea eb).
    destruct (ea ?= eb) eqn:E; simpl; try reflexivity.
    f_equal. f_equal. apply (Pos.compare_antisym ma mb).
  - rewrite (Z.compare_antisym ea eb).
    destruct (ea ?= eb) eqn:E; simpl; try reflexivity.
    f_equal. apply (Pos.compare_antisym ma mb).
Qed.

(** Two floats that compare equal are the same value, or two zeros. *)
Lemma SFcompare_Eq_inv (a b : float) :
  SFcompare a b = Some Eq ->
  a = b \/ exists sa sb, a = S754_zero sa /\ b = S754_zero sb.
Proof.
  destruct a as [sa|sa| |sa ma ea], b as [sb|sb| |sb mb eb];
    try destruct sa; try destruct sb; simpl; intros H;
    try discriminate; eauto.
  - destruct (ea ?= eb) eqn:E; try discriminate.
    apply Z.compare_eq in E. injection H as H.
    apply CompOpp_iff in H. simpl in H.
    apply Pos.compare_eq in H. left. congruence.
  - destruct (ea ?= eb) eqn:E; try discriminate.
    apply Z.compare_eq in E. injection H as H.
    apply Pos.compare_eq in H. left. congruence.
Qed.

Lemma SFcompare_zero_l (sa sb : bool) (x : float) :
  SFcompare (S754_zero sa) x = SFcompare (S754_zero sb) x.
Proof. destruct x; reflexivity. Qed.

Lemma SFcompare_zero_r (sa sb : bool) (x : float) :
  SFcompare x (S754_zero sa) = SFcompare x (S754_zero sb).
Proof. destruct x; reflexivity. Qed.

Lemma SFcompare_Eq_l (a b x : float) :
  SFcompare a b = Some Eq -> SFcompare a x = SFcompare b x.
Proof.
  intros H. destruct (SFcompare_Eq_inv a b H) as [->|(sa & sb & -> & ->)].
  - reflexivity.
  - apply SFcompare_zero_l.
Qed.

Lemma SFcompare_Eq_r (a b x : float) :
  SFcompare a b = Some Eq -> SFcompare x a = SFcompare x b.
Proof.
  intros H. destruct (SFcompare_Eq_inv a b H) as [->|(sa & sb & -> & ->)].
  - reflexivity.
  - apply SFcompare_zero_r.
Qed.

Lemma SFcompare_nan_l (a b : float) :
  is_nan a = true -> SFcompare a b = None.
Proof. destruct a; try discriminate. reflexivity. Qed.

Lemma SFcompare_nan_r (a b : float) :
  is_nan b = true -> SFcompare a b = None.
Proof. destruct b; try discriminate. destruct a; reflexivity. Qed.

Lemma SFcompare_total (a b : float) :
  is_nan a = false -> is_nan b = false -> is_Some (SFcompare a b).
Proof.
  destruct a, b; simpl; intros; try discriminate; eauto.
Qed.

(** [min] does not depend on the order of its arguments as far as
    comparisons can tell, as soon as the two are both NaN or both not. *)
Lemma fle_min_swap (a b x : float) :
  is_nan a = is_nan b -> fle (Py.min a b) x = fle (Py.min b a) x.
Proof.
  intros Hn. unfold fle, Py.min, flt, SFleb, SFltb.
  destruct (is_nan a) eqn:Ha.
  { symmetry in Hn.
    rewrite (SFcompare_nan_l a b Ha), (SFcompare_nan_l b a Hn).
    rewrite (SFcompare_nan_l a x Ha), (SFcompare_nan_l b x Hn).
    reflexivity. }
  symmetry in Hn. destruct (SFcompare_total a b Ha Hn) as [c Hc].
  rewrite (SFcompare_swap a b), Hc. simpl.
  destruct c; simpl; try reflexivity.
  rewrite (SFcompare_Eq_l a b x Hc). reflexivity.
Qed.

Lemma fle_max_swap (a b x : float) :
  is_nan a = is_nan b -> fle x (Py.max a b) = fle x (Py.max b a).
Proof.
  intros Hn. unfold fle, Py.max, fgt, SFleb, SFltb.
  destruct (is_nan a) eqn:Ha.
  { symmetry in Hn.
    rewrite (SFcompare_nan_l a b Ha), (SFcompare_nan_l b a Hn).
    rewrite (SFcompare_nan_r x a Ha), (SFcompare_nan_r x b Hn).
    reflexivity. }
  symmetry in Hn. destruct (SFcompare_total a b Ha Hn) as [c Hc].
  rewrite (SFcompare_swap a b), Hc. simpl.
  destruct c; simpl; try reflexivity.
  rewrite (SFcompare_Eq_r a b x Hc). reflexivity.
Qed.

Lemma in_bbox_swap (lat1 lon1 lat2 lon2 : float) (p : point) :
  is_nan lat1 = is_nan lat2 -> is_nan lon1 = is_nan lon2 ->
  in_bbox lat1 lon1 lat2 lon2 p = in_bbox lat2 lon2 lat1 lon1 p.
Proof.
  intros Hlat Hlon. unfold in_bbox.
  rewrite (fle_min_swap lat1 lat2), (fle_max_swap lat1 lat2) by assumption.
  rewrite (fle_min_swap lon1 lon2), (fle_max_swap lon1 lon2) by assumption.
  reflexivity.
Qed.

End FloatOrder.

(** ** The bounding-box filter *)

Section Filter.

Variables lat1 lon1 lat2 lon2 : float.

(** The loop of [filter_coords_by_bbox] appends the retained points to
    what it has accumulated. *)
Lemma filter_loop (coords acc : list point) :
  foldl (fun filtered '(lat, lon, alt) =>
           if (fle (Py.min lat1 lat2) lat && fle lat (Py.max lat1 lat2))
              && (fle (Py.min lon1 lon2) lon && fle lon (Py.max lon1 lon2))
           then filtered ++ [(lat, lon, alt)]
           else filtered)
        acc coords
  = acc ++ List.filter (in_bbox lat1 lon1 lat2 lon2) coords.
Proof.
  revert acc. induction coords as [|[[lat lon] alt] coords IH]; intros acc.
  - simpl. rewrite app_nil_r. reflexivity.
  - simpl. rewrite IH. unfold in_bbox at 2, lat_of, lon_of. simpl.
    destruct (_ && _); [|reflexivity].
    rewrite <- app_assoc. reflexivity.
Qed.

Lemma filter_coords_by_bbox_filter (coords : list point) :
  filter_coords_by_bbox (Some coords) lat1 lon1 lat2 lon2
  = List.filter (in_bbox lat1 lon1 lat2 lon2) coords.
Proof. unfold filter_coords_by_bbox. apply (filter_loop coords []). Qed.

Lemma filter_bool_sublist {A} (f : A -> bool) (l : list A) :
  List.filter f l `sublist_of` l.
Proof.
  induction l as [|x l IH]; simpl.
  - constructor.
  - destruct (f x); [apply sublist_skip | apply sublist_cons]; exact IH.
Qed.

End Filter.

(** C2. On a point list, [filter_coords_by_bbox] returns the points that
    satisfy the inclusive box condition [in_bbox], each as often as it
    occurs and in the order of the input: the result is the filtered list,
    it is a subsequence of the input, and a point belongs to it exactly
    when it belongs to the input and satisfies the condition. *)
Theorem filter_coords_by_bbox_spec
    (coords : list point) (lat1 lon1 lat2 lon2 : float) :
  filter_coords_by_bbox (Some coords) lat1 lon1 lat2 lon2
    = List.filter (in_bbox lat1 lon1 lat2 lon2) coords
  /\ filter_coords_by_bbox (Some coords) lat1 lon1 lat2 lon2
       `sublist_of` coords
  /\ (forall p : point,
        p ∈ filter_coords_by_bbox (Some coords) lat1 lon1 lat2 lon2
        <-> p ∈ coords /\ in_bbox lat1 lon1 lat2 lon2 p = true).
Proof.
  rewrite filter_coords_by_bbox_filter. split; [reflexivity|]. split.
  - apply filter_bool_sublist.
  - intros p. rewrite !list_elem_of_In. apply filter_In.
Qed.

(** C8, as the code has it. Swapping the two corners does not change the
    result of [filter_coords_by_bbox] when, on each axis, the two corner
    coordinates are both NaN or both not NaN; in particular when no corner
    coordinate is NaN. *)
Theorem filter_corner_order
    (coords : option (list point)) (lat1 lon1 lat2 lon2 : float) :
  is_nan lat1 = is_nan lat2 ->
  is_nan lon1 = is_nan lon2 ->
  filter_coords_by_bbox coords lat1 lon1 lat2 lon2
  = filter_coords_by_bbox coords lat2 lon2 lat1 lon1.
Proof.
  intros Hlat Hlon. destruct coords as [coords|]; [|reflexivity].
  rewrite !filter_coords_by_bbox_filter.
  apply filter_ext. intros p. apply in_bbox_swap; assumption.
Qed.

Lemma filter_corner_order_witness :
  filter_coords_by_bbox (Some [Sample.p22]) Sample.f1 Sample.f3
                        Sample.f3 Sample.f1
  = filter_coords_by_bbox (Some [Sample.p22]) Sample.f3 Sample.f1
                          Sample.f1 Sample.f3
  /\ filter_coords_by_bbox (Some [Sample.p22]) Sample.f1 Sample.f3
                           Sample.f3 Sample.f1 = [Sample.p22].
Proof.
  split.
  - apply (filter_corner_order (Some [Sample.p22]) Sample.f1 Sample.f3
                               Sample.f3 Sample.f1); reflexivity.
  - vm_compute. reflexivity.
Defined.

(** With a NaN latitude in one corner the order of the corners matters:
    [min(nan, 1.0)] and [max(nan, 1.0)] are NaN and nothing is retained,
    [min(1.0, nan)] and [max(1.0, nan)] are 1.0 and the point at latitude
    1.0 is retained. *)
Lemma filter_corner_order_nan :
  filter_coords_by_bbox (Some [Sample.p11]) S754_nan Sample.f1
                        Sample.f1 Sample.f1 = []
  /\ filter_coords_by_bbox (Some [Sample.p11]) Sample.f1 Sample.f1
                           S754_nan Sample.f1 = [Sample.p11]
  /\ filter_coords_by_bbox (Some [Sample.p11]) S754_nan Sample.f1
                           Sample.f1 Sample.f1
     <> filter_coords_by_bbox (Some [Sample.p11]) Sample.f1 Sample.f1
                              S754_nan Sample.f1.
Proof. vm_compute. repeat split. discriminate. Qed.

(** C10. On the failure value [None] of the parser the filter returns the
    empty list, whatever the corners, and so it does on the empty list:
    the filter has a result on each of the three forms of the parser's
    result. *)
Theorem filter_coords_by_bbox_None (lat1 lon1 lat2 lon2 : float) :
  filter_coords_by_bbox None lat1 lon1 lat2 lon2 = []
  /\ filter_coords_by_bbox (Some []) lat1 lon1 lat2 lon2 = []
  /\ forall coords : list point,
       filter_coords_by_bbox (Some coords) lat1 lon1 lat2 lon2
       = List.filter (in_bbox lat1 lon1 lat2 lon2) coords.
Proof.
  split; [reflexivity|]. split; [reflexivity|].
  intros coords. apply filter_coords_by_bbox_filter.
Qed.

(** ** The plan builder *)

Section Indexing.

Context {A : Type}.

Lemma getitem_lookup (l : list A) (i : Z) (x : A) :
  0 <= i -> l !! Z.to_nat i = Some x -> getitem l i = Ret x.
Proof.
  intros Hi Hx. unfold getitem.
  destruct (i <? 0) eqn:E; [apply Z.ltb_lt in E; lia|].
  rewrite E, Hx. reflexivity.
Qed.

Lemma getitem_in_range (l : list A) (i : Z) :
  0 <= i < len l -> exists x, l !! Z.to_nat i = Some x /\ getitem l i = Ret x.
Proof.
  intros Hi. unfold len in Hi.
  destruct (lookup_lt_is_Some_2 l (Z.to_nat i)) as [x Hx]; [lia|].
  exists x. split; [exact Hx|]. apply getitem_lookup; [lia|exact Hx].
Qed.

End Indexing.

Section Range.

Lemma range_length_forward (L step : Z) :
  1 <= L -> 1 <= step -> range_length 0 L step = 1 + (L - 1) / step.
Proof.
  intros HL Hs. unfold range_length.
  destruct (0 <? step) eqn:E1; [|apply Z.ltb_ge in E1; lia].
  destruct (0 <? L) eqn:E2; [|apply Z.ltb_ge in E2; lia].
  simpl. f_equal. f_equal. lia.
Qed.

Lemma range_length_backward (L step : Z) :
  0 <= L -> step < 0 -> range_length 0 L step = 0.
Proof.
  intros HL Hs. unfold range_length.
  destruct (0 <? step) eqn:E1; [apply Z.ltb_lt in E1; lia|].
  destruct (L <? 0) eqn:E2; [apply Z.ltb_lt in E2; lia|].
  simpl. rewrite andb_false_r. reflexivity.
Qed.

(** The last index that [range(0, L, step)] yields is below [L]. *)
Lemma range_index_bound (L step : Z) (k : nat) :
  1 <= L -> 1 <= step ->
  (k < Z.to_nat (1 + (L - 1) / step))%nat ->
  0 <= Z.of_nat k * step < L.
Proof.
  intros HL Hs Hk.
  assert (0 <= (L - 1) / step) by (apply Z.div_pos; lia).
  assert (Z.of_nat k <= (L - 1) / step) by lia.
  assert (step * ((L - 1) / step) <= L - 1)
    by (apply Z.mul_div_le; lia).
  nia.
Qed.

(** The count [1 + (L - 1) / step] is the ceiling of [L / step]. *)
Lemma count_is_ceiling (L step : Z) :
  1 <= L -> 1 <= step ->
  1 + (L - 1) / step = (L + step - 1) / step
  /\ (1 + (L - 1) / step - 1) * step < L <= (1 + (L - 1) / step) * step.
Proof.
  intros HL Hs. split.
  - replace (L + step - 1) with (L - 1 + 1 * step) by lia.
    rewrite Z.div_add by lia. lia.
  - pose proof (Z.mul_div_le (L - 1) step ltac:(lia)).
    pose proof (Z.mul_succ_div_gt (L - 1) step ltac:(lia)).
    nia.
Qed.

End Range.

Section Builder.

Variable coords : list point.
Variables default_alt acceptance_radius : float.

Lemma item_step_ok (acc : list value) (j i : Z) (lat lon alt : float) :
  getitem coords i = Ret (lat, lon, alt) ->
  item_step coords default_alt acceptance_radius (acc, j) i
  = Ret (acc ++ [make_item j lat lon default_alt acceptance_radius], j + 1).
Proof. intros H. unfold item_step. rewrite H. reflexivity. Qed.

Lemma for_each_items (step : Z) (ks : list nat) :
  forall (acc : list value) (j : Z),
  (forall k, k ∈ ks -> 0 <= Z.of_nat k * step < len coords) ->
  exists items : list value,
    for_each ((fun k => 0 + Z.of_nat k * step) <$> ks)
             (item_step coords default_alt acceptance_radius) (acc, j)
    = Ret (acc ++ items, j + len ks)
    /\ length items = length ks
    /\ forall (n k : nat), ks !! n = Some k ->
         exists p, coords !! Z.to_nat (Z.of_nat k * step) = Some p
           /\ items !! n
              = Some (make_item (j + Z.of_nat n) (lat_of p) (lon_of p)
                                default_alt acceptance_radius).
Proof.
  induction ks as [|k ks IH]; intros acc j Hks.
  - exists []. simpl. rewrite app_nil_r. unfold len. simpl.
    rewrite Z.add_0_r. repeat split. intros n k Hn. discriminate.
  - destruct (getitem_in_range coords (Z.of_nat k * step)) as (p & Hp & Hg).
    { apply Hks. left. }
    destruct p as [[lat lon] alt].
    set (item := make_item j lat lon default_alt acceptance_radius).
    destruct (IH (acc ++ [item]) (j + 1)) as (items & Hrun & Hlen & Hat).
    { intros k' Hk'. apply Hks. right. exact Hk'. }
    exists (item :: items). split; [|split].
    + rewrite fmap_cons. cbn [for_each].
      rewrite (item_step_ok acc j _ lat lon alt)
        by (rewrite Z.add_0_l; exact Hg).
      cbn [mbind res_bind]. fold item. rewrite Hrun.
      rewrite <- app_assoc. unfold len. cbn [length app].
      f_equal. f_equal. lia.
    + simpl. rewrite Hlen. reflexivity.
    + intros [|n] k' Hn; simpl in Hn.
      * injection Hn as <-. exists (lat, lon, alt). split; [exact Hp|].
        simpl. rewrite Z.add_0_r. reflexivity.
      * destruct (Hat n k' Hn) as (p & Hp' & Hi). exists p.
        split; [exact Hp'|]. simpl. rewrite Hi.
        do 2 f_equal. lia.
Qed.

End Builder.

Section Plan.

Variables default_alt acceptance_radius : float.

(** What [create_plan_json] returns on a non-empty list with a positive
    stride: the plan, its home position and its items. *)
Lemma create_plan_json_ok (p0 : point) (rest : list point) (step : Z) :
  1 <= step ->
  exists items : list value,
    create_plan_json (Some (p0 :: rest)) step default_alt acceptance_radius
    = Ret (Some (make_plan items [VFloat (lat_of p0); VFloat (lon_of p0);
                                  VFloat default_alt]))
    /\ len items = 1 + (len (p0 :: rest) - 1) / step
    /\ forall k : nat, (k < length items)%nat ->
         exists p, (p0 :: rest) !! Z.to_nat (Z.of_nat k * step) = Some p
           /\ items !! k
              = Some (make_item (Z.of_nat k + 1) (lat_of p) (lon_of p)
                                default_alt acceptance_radius).
Proof.
  intros Hs.
  set (coords := p0 :: rest).
  assert (HL : 1 <= len coords) by (unfold len, coords; cbn [length]; lia).
  set (n := Z.to_nat (1 + (len coords - 1) / step)).
  assert (Hdiv : 0 <= (len coords - 1) / step) by (apply Z.div_pos; lia).
  assert (Hn : Z.of_nat n = 1 + (len coords - 1) / step).
  { unfold n. rewrite Z2Nat.id; [reflexivity|lia]. }
  destruct (for_each_items coords default_alt acceptance_radius step
              (seq 0 n) [] 1) as (items & Hrun & Hlen & Hat).
  { intros k Hk. apply elem_of_seq in Hk.
    apply range_index_bound; [exact HL|exact Hs|]. fold n. lia. }
  rewrite length_seq in Hlen.
  exists items. split; [|split].
  - unfold create_plan_json. fold coords.
    rewrite (getitem_lookup coords 0 p0) by (reflexivity || lia).
    destruct p0 as [[lat0 lon0] alt0]. cbn [mbind res_bind].
    unfold range. destruct (step =? 0) eqn:E; [apply Z.eqb_eq in E; lia|].
    rewrite range_length_forward by assumption. fold n.
    cbn [mbind res_bind]. rewrite Hrun. cbn [mbind res_bind app].
    destruct items as [|it items]; [simpl in Hlen; lia|]. reflexivity.
  - unfold len at 1. rewrite Hlen. exact Hn.
  - intros k Hk. destruct (Hat k k) as (p & Hp & Hi).
    { apply lookup_seq. lia. }
    exists p. split; [exact Hp|]. rewrite Hi. do 2 f_equal. lia.
Qed.

(** A zero stride makes [range] raise. *)
Lemma create_plan_json_zero_step (p0 : point) (rest : list point) :
  create_plan_json (Some (p0 :: rest)) 0 default_alt acceptance_radius
  = Raise ValueError.
Proof.
  unfold create_plan_json.
  rewrite (getitem_lookup (p0 :: rest) 0 p0) by (reflexivity || lia).
  destruct p0 as [[lat0 lon0] alt0]. reflexivity.
Qed.

(** With a negative stride the loop does not run and the check after
    the loop returns [None]. *)
Lemma create_plan_json_negative_step
    (p0 : point) (rest : list point) (step : Z) :
  step < 0 ->
  create_plan_json (Some (p0 :: rest)) step default_alt acceptance_radius
  = Ret None.
Proof.
  intros Hs. unfold create_plan_json.
  rewrite (getitem_lookup (p0 :: rest) 0 p0) by (reflexivity || lia).
  destruct p0 as [[lat0 lon0] alt0]. cbn [mbind res_bind].
  unfold range. destruct (step =? 0) eqn:E; [apply Z.eqb_eq in E; lia|].
  rewrite range_length_backward by (unfold len; lia). reflexivity.
Qed.

(** A plan is returned only for a non-empty list and a positive stride. *)
Lemma create_plan_json_Some_inv
    (coords : option (list point)) (step : Z) (plan : value) :
  create_plan_json coords step default_alt acceptance_radius
  = Ret (Some plan) ->
  1 <= step /\ exists p0 rest, coords = Some (p0 :: rest).
Proof.
  intros H. destruct coords as [[|p0 rest]|]; try discriminate.
  split; [|eauto].
  destruct (Z.lt_trichotomy step 0) as [Hs|[->|Hs]]; [| |lia].
  - rewrite create_plan_json_negative_step in H by exact Hs. discriminate.
  - rewrite create_plan_json_zero_step in H. discriminate.
Qed.

End Plan.

(** C1. For a non-empty point list whose first element is [p0], every
    stride of at least 1 and every default altitude, the plan built by
    [create_plan_json] has [plannedHomePosition] equal to
    [[lat p0, lon p0, default_alt]]; the first point is taken before the
    stride is applied, so two strides give the same home position. *)
Theorem planned_home_position
    (coords : list point) (p0 : point) (step step' : Z)
    (default_alt acceptance_radius : float) :
  coords !! 0%nat = Some p0 ->
  1 <= step ->
  1 <= step' ->
  exists plan plan' : value,
    create_plan_json (Some coords) step default_alt acceptance_radius
    = Ret (Some plan)
    /\ create_plan_json (Some coords) step' default_alt acceptance_radius
       = Ret (Some plan')
    /\ plan_home plan
       = Some (VList [VFloat (lat_of p0); VFloat (lon_of p0);
                      VFloat default_alt])
    /\ plan_home plan' = plan_home plan.
Proof.
  intros H0 Hs Hs'. destruct coords as [|p rest]; [discriminate|].
  injection H0 as ->.
  destruct (create_plan_json_ok default_alt acceptance_radius p0 rest step Hs)
    as (items & Hrun & _).
  destruct (create_plan_json_ok default_alt acceptance_radius p0 rest step' Hs')
    as (items' & Hrun' & _).
  eexists _, _. split; [exact Hrun|]. split; [exact Hrun'|].
  split; reflexivity.
Qed.

Lemma planned_home_position_witness :
  [Sample.p11; Sample.p22; Sample.p33] !! 0%nat = Some Sample.p11
  /\ 1 <= 1 /\ 1 <= 2
  /\ exists plan plan' : value,
       create_plan_json (Some [Sample.p11; Sample.p22; Sample.p33]) 1
                        Sample.f0 Sample.f2 = Ret (Some plan)
       /\ create_plan_json (Some [Sample.p11; Sample.p22; Sample.p33]) 2
                           Sample.f0 Sample.f2 = Ret (Some plan')
       /\ plan_home plan
          = Some (VList [VFloat (lat_of Sample.p11);
                         VFloat (lon_of Sample.p11); VFloat Sample.f0])
       /\ plan_home plan' = plan_home plan.
Proof.
  split; [reflexivity|]. split; [lia|]. split; [lia|].
  apply (planned_home_position [Sample.p11; Sample.p22; Sample.p33]
           Sample.p11 1 2 Sample.f0 Sample.f2); [reflexivity|lia|lia].
Defined.

(** C3. For a point list of length [L >= 1] and a stride [S >= 1],
    [create_plan_json] returns a plan with exactly [ceil(L / S)] items;
    the item at position [k] is the waypoint built from the point at index
    [k * S], and every index below [L] that is a multiple of [S] is the
    index of one of the items. *)
Theorem stride_selection
    (coords : list point) (step : Z)
    (default_alt acceptance_radius : float) :
  1 <= len coords ->
  1 <= step ->
  exists (plan : value) (items : list value),
    create_plan_json (Some coords) step default_alt acceptance_radius
    = Ret (Some plan)
    /\ plan_items plan = Some items
    /\ len items = (len coords + step - 1) / step
    /\ (len items - 1) * step < len coords <= len items * step
    /\ (forall k : nat, (k < length items)%nat ->
          0 <= Z.of_nat k * step < len coords
          /\ exists p : point,
               getitem coords (Z.of_nat k * step) = Ret p
               /\ items !! k
                  = Some (make_item (Z.of_nat k + 1) (lat_of p) (lon_of p)
                                    default_alt acceptance_radius))
    /\ (forall j : Z, 0 <= j -> j * step < len coords -> j < len items).
Proof.
  intros HL Hs.
  destruct coords as [|p0 rest]; [unfold len in HL; simpl in HL; lia|].
  destruct (create_plan_json_ok default_alt acceptance_radius p0 rest step Hs)
    as (items & Hrun & Hlen & Hat).
  destruct (count_is_ceiling (len (p0 :: rest)) step HL Hs) as [Hceil Hbnd].
  exists (make_plan items [VFloat (lat_of p0); VFloat (lon_of p0);
                           VFloat default_alt]), items.
  split; [exact Hrun|]. split; [reflexivity|].
  split; [rewrite Hlen; exact Hceil|].
  split; [rewrite Hlen; exact Hbnd|]. split.
  - intros k Hk.
    assert (Hr : 0 <= Z.of_nat k * step < len (p0 :: rest)).
    { apply range_index_bound; [exact HL|exact Hs|].
      unfold len in Hlen at 1. lia. }
    split; [exact Hr|].
    destruct (Hat k Hk) as (p & Hp & Hi). exists p.
    split; [|exact Hi]. apply getitem_lookup; [lia|exact Hp].
  - intros j Hj Hlt. rewrite Hlen.
    assert (j <= (len (p0 :: rest) - 1) / step); [|lia].
    apply Z.div_le_lower_bound; lia.
Qed.

Lemma stride_selection_witness :
  1 <= len [Sample.p11; Sample.p22; Sample.p33]
  /\ 1 <= 2
  /\ exists (plan : value) (items : list value),
       create_plan_json (Some [Sample.p11; Sample.p22; Sample.p33]) 2
                        Sample.f0 Sample.f2 = Ret (Some plan)
       /\ plan_items plan = Some items
       /\ len items = (len [Sample.p11; Sample.p22; Sample.p33] + 2 - 1) / 2
       /\ (len items - 1) * 2 < len [Sample.p11; Sample.p22; Sample.p33]
          <= len items * 2
       /\ (forall k : nat, (k < length items)%nat ->
             0 <= Z.of_nat k * 2 < len [Sample.p11; Sample.p22; Sample.p33]
             /\ exists p : point,
                  getitem [Sample.p11; Sample.p22; Sample.p33]
                          (Z.of_nat k * 2) = Ret p
                  /\ items !! k
                     = Some (make_item (Z.of_nat k + 1) (lat_of p) (lon_of p)
                                       Sample.f0 Sample.f2))
       /\ (forall j : Z, 0 <= j ->
             j * 2 < len [Sample.p11; Sample.p22; Sample.p33] ->
             j < len items).
Proof.
  split; [vm_compute; discriminate|]. split; [lia|].
  apply (stride_selection [Sample.p11; Sample.p22; Sample.p33] 2
           Sample.f0 Sample.f2); [vm_compute; discriminate|lia].
Defined.

(** The plan of the sample track with stride 2: the first and the third
    point, numbered 1 and 2. *)
Example sample_plan_stride_two :
  create_plan_json (Some [Sample.p11; Sample.p22; Sample.p33]) 2
                   Sample.f0 Sample.f2
  = Ret (Some (make_plan
                 [make_item 1 Sample.f1 Sample.f1 Sample.f0 Sample.f2;
                  make_item 2 Sample.f3 Sample.f3 Sample.f0 Sample.f2]
                 [VFloat Sample.f1; VFloat Sample.f1; VFloat Sample.f0])).
Proof. vm_compute. reflexivity. Qed.

(** C4. In every plan that [create_plan_json] returns, the item at
    position [k] (from 0) has [doJumpId] [k + 1], so the identifiers are
    1, 2, ..., count in order; its [Altitude] and its 7th parameter are the
    default altitude, its 5th and 6th parameters are the latitude and the
    longitude of the selected point, and its 4th parameter is null. The
    altitude of the point itself does not occur. *)
Theorem waypoint_items
    (coords : option (list point)) (step : Z)
    (default_alt acceptance_radius : float) (plan : value) :
  create_plan_json coords step default_alt acceptance_radius
  = Ret (Some plan) ->
  exists (cs : list point) (items : list value),
    coords = Some cs
    /\ plan_items plan = Some items
    /\ forall (k : nat) (item : value), items !! k = Some item ->
         subscript item "doJumpId" = Some (VInt (Z.of_nat k + 1))
         /\ subscript item "Altitude" = Some (VFloat default_alt)
         /\ exists p : point,
              getitem cs (Z.of_nat k * step) = Ret p
              /\ subscript item "params"
                 = Some (VList [VFloat (S754_zero false);
                                VFloat acceptance_radius;
                                VFloat (S754_zero false);
                                VNone;
                                VFloat (lat_of p);
                                VFloat (lon_of p);
                                VFloat default_alt]).
Proof.
  intros H.
  destruct (create_plan_json_Some_inv _ _ _ _ _ H) as (Hs & p0 & rest & ->).
  destruct (create_plan_json_ok default_alt acceptance_radius p0 rest step Hs)
    as (items & Hrun & Hlen & Hat).
  rewrite Hrun in H. injection H as <-.
  exists (p0 :: rest), items. split; [reflexivity|]. split; [reflexivity|].
  intros k item Hk.
  destruct (Hat k (lookup_lt_Some _ _ _ Hk)) as (p & Hp & Hi).
  rewrite Hi in Hk. injection Hk as <-.
  split; [reflexivity|]. split; [reflexivity|].
  exists p. split; [|reflexivity].
  apply getitem_lookup; [lia|exact Hp].
Qed.

Lemma waypoint_items_witness :
  create_plan_json (Some [Sample.p11; Sample.p22; Sample.p33]) 2
                   Sample.f0 Sample.f2
  = Ret (Some (make_plan
                 [make_item 1 Sample.f1 Sample.f1 Sample.f0 Sample.f2;
                  make_item 2 Sample.f3 Sample.f3 Sample.f0 Sample.f2]
                 [VFloat Sample.f1; VFloat Sample.f1; VFloat Sample.f0]))
  /\ exists (cs : list point) (items : list value),
       Some [Sample.p11; Sample.p22; Sample.p33] = Some cs
       /\ plan_items
            (make_plan
               [make_item 1 Sample.f1 Sample.f1 Sample.f0 Sample.f2;
                make_item 2 Sample.f3 Sample.f3 Sample.f0 Sample.f2]
               [VFloat Sample.f1; VFloat Sample.f1; VFloat Sample.f0])
          = Some items
       /\ forall (k : nat) (item : value), items !! k = Some item ->
            subscript item "doJumpId" = Some (VInt (Z.of_nat k + 1))
            /\ subscript item "Altitude" = Some (VFloat Sample.f0)
            /\ exists p : point,
                 getitem cs (Z.of_nat k * 2) = Ret p
                 /\ subscript item "params"
                    = Some (VList [VFloat (S754_zero false);
                                   VFloat Sample.f2;
                                   VFloat (S754_zero false);
                                   VNone;
                                   VFloat (lat_of p);
                                   VFloat (lon_of p);
                                   VFloat Sample.f0]).
Proof.
  split; [vm_compute; reflexivity|].
  apply (waypoint_items (Some [Sample.p11; Sample.p22; Sample.p33]) 2
           Sample.f0 Sample.f2).
  vm_compute. reflexivity.
Defined.

(** C5. With a stride of at least 1, [create_plan_json] returns [None]
    exactly when its input is empty (the empty list, or [None] in place of
    a list); on a non-empty list it returns a plan with at least one item,
    so the check after the loop does not fail. *)
Theorem plan_failure_iff_empty
    (coords : option (list point)) (step : Z)
    (default_alt acceptance_radius : float) :
  1 <= step ->
  (create_plan_json coords step default_alt acceptance_radius = Ret None
   <-> coords = None \/ coords = Some [])
  /\ (forall cs : list point,
        coords = Some cs -> cs <> [] ->
        exists (plan : value) (items : list value),
          create_plan_json coords step default_alt acceptance_radius
          = Ret (Some plan)
          /\ plan_items plan = Some items
          /\ 1 <= len items).
Proof.
  intros Hs. destruct coords as [[|p0 rest]|].
  - split; [split; [right|]; reflexivity|].
    intros cs [= <-] H. contradiction.
  - destruct (create_plan_json_ok default_alt acceptance_radius p0 rest step Hs)
      as (items & Hrun & Hlen & _).
    split.
    + rewrite Hrun. split; [discriminate|]. intros [H|H]; discriminate.
    + intros cs [= <-] _. eexists _, items. split; [exact Hrun|].
      split; [reflexivity|]. rewrite Hlen.
      assert (0 <= (len (p0 :: rest) - 1) / step); [|lia].
      apply Z.div_pos; [|lia]. unfold len. cbn [length]. lia.
  - split; [split; [left|]; reflexivity|]. intros cs H. discriminate.
Qed.

Lemma plan_failure_iff_empty_witness :
  1 <= 5
  /\ (create_plan_json (Some [Sample.p11; Sample.p22]) 5 Sample.f0 Sample.f2
      = Ret None
      <-> Some [Sample.p11; Sample.p22] = None
          \/ Some [Sample.p11; Sample.p22] = Some [])
  /\ (forall cs : list point,
        Some [Sample.p11; Sample.p22] = Some cs -> cs <> [] ->
        exists (plan : value) (items : list value),
          create_plan_json (Some [Sample.p11; Sample.p22]) 5
                           Sample.f0 Sample.f2 = Ret (Some plan)
          /\ plan_items plan = Some items
          /\ 1 <= len items).
Proof.
  split; [lia|].
  apply (plan_failure_iff_empty (Some [Sample.p11; Sample.p22]) 5
           Sample.f0 Sample.f2). lia.
Defined.

(** The value [None] in place of a list is treated like the empty list. *)
Lemma create_plan_json_None (step : Z) (default_alt acceptance_radius : float) :
  create_plan_json None step default_alt acceptance_radius = Ret None.
Proof. reflexivity. Qed.

(** ** The track reader *)

Section Reader.

Variable float_of_str : string -> option float.

Lemma read_alt_elevation (ns : option string) (e : ET.Element) :
  read_alt float_of_str (ET.find e (nstag ns "ele"))
  = Ret (default (S754_zero false) (elevation float_of_str ns e)).
Proof.
  unfold read_alt, elevation.
  destruct (ET.find e (nstag ns "ele")) as [el|]; [|reflexivity].
  cbn [mbind option_bind]. destruct (ET.text el) as [t|]; [|reflexivity].
  cbn [mbind option_bind]. unfold py_float.
  destruct (float_of_str t); reflexivity.
Qed.

Lemma read_trkpt_well_formed (ns : option string) (e : ET.Element) :
  well_formed float_of_str e = true ->
  exists p, read_trkpt float_of_str ns e = Ret p
            /\ reads_as float_of_str ns e p.
Proof.
  unfold well_formed, reads_as, coordinate, read_trkpt, attrib_getitem,
    py_float.
  intros H.
  destruct (ET.attrib e !! "lat") as [slat|]; [|discriminate].
  cbn [mbind option_bind res_bind] in *.
  destruct (float_of_str slat) as [lat|]; [|discriminate].
  destruct (ET.attrib e !! "lon") as [slon|]; [|discriminate].
  cbn [mbind option_bind res_bind] in *.
  destruct (float_of_str slon) as [lon|]; [|discriminate].
  cbn [mbind option_bind res_bind]. rewrite read_alt_elevation.
  eexists. split; [reflexivity|]. repeat split.
Qed.

Lemma read_trkpt_malformed (ns : option string) (e : ET.Element) :
  well_formed float_of_str e = false ->
  read_trkpt float_of_str ns e = Raise KeyError
  \/ read_trkpt float_of_str ns e = Raise ValueError.
Proof.
  unfold well_formed, coordinate, read_trkpt, attrib_getitem, py_float.
  intros H.
  destruct (ET.attrib e !! "lat") as [slat|]; [|left; reflexivity].
  cbn [mbind option_bind res_bind] in *.
  destruct (float_of_str slat) as [lat|]; [|right; reflexivity].
  destruct (ET.attrib e !! "lon") as [slon|]; [|left; reflexivity].
  cbn [mbind option_bind res_bind] in *.
  destruct (float_of_str slon) as [lon|]; [discriminate|right; reflexivity].
Qed.


Lemma trkpt_step_malformed
    (ns : option string) (e : ET.Element) (acc : list point) :
  well_formed float_of_str e = false ->
  trkpt_step float_of_str ns acc e = Ret acc.
Proof.
  intros Hwf. unfold trkpt_step.
  destruct (read_trkpt_malformed ns e Hwf) as [-> | ->]; reflexivity.
Qed.


End Reader.

(** ** Namespaces *)

Section Strings.

Lemma prefix_app (p a b : string) :
  String.prefix (p +:+ a) (p +:+ b) = String.prefix a b.
Proof.
  induction p as [|c p IH]; [reflexivity|].
  simpl. destruct (ascii_dec c c); [exact IH|contradiction].
Qed.

Lemma prefix_empty (s : string) : String.prefix "" s = true.
Proof. destruct s; reflexivity. Qed.

Lemma eqb_app (p a b : string) :
  String.eqb (p +:+ a) (p +:+ b) = String.eqb a b.
Proof.
  induction p as [|c p IH]; [reflexivity|].
  simpl. rewrite Ascii.eqb_refl. exact IH.
Qed.

Lemma contains_app (sub a b : string) :
  String.prefix sub b = true -> contains sub (a +:+ b) = true.
Proof.
  intros H. induction a as [|c a IH].
  - destruct b; simpl in *; rewrite H; reflexivity.
  - simpl. rewrite IH. apply orb_true_r.
Qed.

Lemma split_head_app (c : ascii) (ns t : string) :
  split_head c ns = ns -> split_head c (ns +:+ String c t) = ns.
Proof.
  induction ns as [|a ns IH]; intros H.
  - simpl. rewrite Ascii.eqb_refl. reflexivity.
  - simpl in *. destruct (Ascii.eqb a c); [discriminate|].
    injection H as H. rewrite IH by exact H. reflexivity.
Qed.

End Strings.

Section Detection.

Variable ns : string.
Hypothesis Hns : plain_namespace ns.

Lemma detect_ns_plain (t : string) :
  startswith t "gpx" = true -> detect_ns t = None.
Proof.
  unfold detect_ns, startswith. intros H.
  destruct t as [|c t]; cbn [String.prefix] in H; [discriminate|].
  destruct (ascii_dec "g" c) as [<-|]; [reflexivity|discriminate].
Qed.

Lemma detect_ns_qualified (t : string) :
  startswith t "gpx" = true ->
  detect_ns ("{" +:+ ns +:+ "}" +:+ t) = Some ns.
Proof.
  intros Ht. destruct Hns as (_ & Hsplit & Hstrip).
  unfold detect_ns.
  assert (Hb : startswith ("{" +:+ ns +:+ "}" +:+ t) "{" = true).
  { exact (eq_trans (prefix_app "{" "" (ns +:+ "}" +:+ t))
                    (prefix_empty _)). }
  rewrite Hb.
  assert (Hc : contains "}gpx" ("{" +:+ ns +:+ "}" +:+ t) = true).
  { change ("{" +:+ ns +:+ "}" +:+ t) with (("{" +:+ ns) +:+ ("}" +:+ t)).
    apply contains_app.
    exact (eq_trans (prefix_app "}" "gpx" t) Ht). }
  rewrite Hc. cbn [andb]. f_equal.
  change ("{" +:+ ns +:+ "}" +:+ t) with (String "{" (ns +:+ String "}" t)).
  cbn [split_head]. change (Ascii.eqb "{" "}") with false. cbn iota.
  rewrite split_head_app by exact Hsplit.
  unfold strip in *. cbn [lstrip]. rewrite Ascii.eqb_refl. exact Hstrip.
Qed.

Lemma nstag_qualified (t : string) :
  nstag (Some ns) t = "{" +:+ ns +:+ "}" +:+ t.
Proof.
  unfold nstag. destruct Hns as (Hne & _). rewrite Hne. reflexivity.
Qed.

End Detection.

Section Trees.

(** Induction on elements, with the property assumed for all children. *)
Lemma Element_nested_ind (P : ET.Element -> Prop) :
  (forall t a x cs, List.Forall P cs -> P (ET.mkElement t a x cs)) ->
  forall e, P e.
Proof.
  intros Hstep. fix IH 1. intros [t a x cs]. apply Hstep.
  induction cs as [|c cs IHcs]; constructor; [apply IH|exact IHcs].
Qed.

Lemma filter_map_comm {A B} (f : B -> bool) (g : A -> B) (l : list A) :
  List.filter f (map g l) = map g (List.filter (fun x => f (g x)) l).
Proof.
  induction l as [|x l IH]; [reflexivity|].
  simpl. destruct (f (g x)); simpl; rewrite IH; reflexivity.
Qed.

Lemma find_map_comm {A B} (f : B -> bool) (g : A -> B) (l : list A) :
  List.find f (map g l) = option_map g (List.find (fun x => f (g x)) l).
Proof.
  induction l as [|x l IH]; [reflexivity|].
  simpl. destruct (f (g x)); [reflexivity|exact IH].
Qed.

Lemma for_each_map {A B S} (g : A -> B) (body : S -> B -> res S)
    (l : list A) (s : S) :
  for_each (map g l) body s = for_each l (fun s x => body s (g x)) s.
Proof.
  revert s. induction l as [|x l IH]; intros s; [reflexivity|].
  simpl. destruct (body s (g x)); [apply IH|reflexivity].
Qed.

Lemma for_each_ext {A S} (body body' : S -> A -> res S) (l : list A) (s : S) :
  (forall s x, body s x = body' s x) ->
  for_each l body s = for_each l body' s.
Proof.
  intros H. revert s. induction l as [|x l IH]; intros s; [reflexivity|].
  simpl. rewrite H. destruct (body' s x); [apply IH|reflexivity].
Qed.

Variable ns : string.

Lemma tag_qualify (e : ET.Element) :
  ET.tag (qualify ns e) = "{" +:+ ns +:+ "}" +:+ ET.tag e.
Proof. destruct e; reflexivity. Qed.

Lemma attrib_qualify (e : ET.Element) :
  ET.attrib (qualify ns e) = ET.attrib e.
Proof. destruct e; reflexivity. Qed.

Lemma text_qualify (e : ET.Element) : ET.text (qualify ns e) = ET.text e.
Proof. destruct e; reflexivity. Qed.

Lemma children_qualify (e : ET.Element) :
  ET.children (qualify ns e) = map (qualify ns) (ET.children e).
Proof. destruct e; reflexivity. Qed.

Lemma tag_qualify_eqb (e : ET.Element) (t : string) :
  String.eqb (ET.tag (qualify ns e)) ("{" +:+ ns +:+ "}" +:+ t)
  = String.eqb (ET.tag e) t.
Proof.
  rewrite tag_qualify, !eqb_app. reflexivity.
Qed.

Lemma descendants_qualify (e : ET.Element) :
  ET.descendants (qualify ns e) = map (qualify ns) (ET.descendants e).
Proof.
  induction e as [t a x cs IH] using Element_nested_ind.
  cbn [qualify ET.descendants map]. f_equal.
  induction IH as [|c cs Hc _ IHcs]; [reflexivity|].
  cbn [map flat_map]. rewrite Hc, IHcs, List.map_app. reflexivity.
Qed.

Lemma iter_qualify (e : ET.Element) (t : string) :
  String.eqb t "*" = false ->
  ET.iter (qualify ns e) ("{" +:+ ns +:+ "}" +:+ t)
  = map (qualify ns) (ET.iter e t).
Proof.
  intros Ht. unfold ET.iter. rewrite Ht.
  replace (String.eqb ("{" +:+ ns +:+ "}" +:+ t) "*") with false
    by reflexivity.
  rewrite descendants_qualify, filter_map_comm.
  f_equal. apply filter_ext. intros x. apply tag_qualify_eqb.
Qed.

Lemma find_qualify (e : ET.Element) (t : string) :
  ET.find (qualify ns e) ("{" +:+ ns +:+ "}" +:+ t)
  = option_map (qualify ns) (ET.find e t).
Proof.
  unfold ET.find. rewrite children_qualify, find_map_comm.
  f_equal. induction (ET.children e) as [|c cs IH]; [reflexivity|].
  simpl. rewrite tag_qualify_eqb, IH. reflexivity.
Qed.

End Trees.

Section Invariance.

Variable float_of_str : string -> option float.
Variable ns : string.
Hypothesis Hns : plain_namespace ns.

Lemma read_alt_qualify (e : ET.Element) :
  read_alt float_of_str (ET.find (qualify ns e) (nstag (Some ns) "ele"))
  = read_alt float_of_str (ET.find e (nstag None "ele")).
Proof.
  rewrite (nstag_qualified ns Hns). cbn [nstag].
  rewrite find_qualify. unfold read_alt.
  destruct (ET.find e "ele") as [el|]; [|reflexivity].
  cbn [option_map]. rewrite text_qualify. reflexivity.
Qed.

Lemma read_trkpt_qualify (e : ET.Element) :
  read_trkpt float_of_str (Some ns) (qualify ns e)
  = read_trkpt float_of_str None e.
Proof.
  unfold read_trkpt. rewrite attrib_qualify, read_alt_qualify. reflexivity.
Qed.

Lemma trkpt_step_qualify (acc : list point) (e : ET.Element) :
  trkpt_step float_of_str (Some ns) acc (qualify ns e)
  = trkpt_step float_of_str None acc e.
Proof. unfold trkpt_step. rewrite read_trkpt_qualify. reflexivity. Qed.

(** Qualifying a document whose root name begins with [gpx] does not
    change what the reader returns. *)
Lemma parse_root_qualify (root : ET.Element) :
  startswith (ET.tag root) "gpx" = true ->
  parse_root float_of_str (qualify ns root) = parse_root float_of_str root.
Proof.
  intros Hroot. unfold parse_root.
  rewrite tag_qualify, (detect_ns_qualified ns Hns _ Hroot).
  rewrite (detect_ns_plain _ Hroot).
  rewrite (nstag_qualified ns Hns). cbn [nstag].
  rewrite iter_qualify by reflexivity.
  rewrite for_each_map. apply for_each_ext. apply trkpt_step_qualify.
Qed.

End Invariance.

(** C7, as the code has it. A document and the same document with every
    element in a namespace [ns] give the same result, provided that the
    name of the root element begins with [gpx] and that [ns] is not empty,
    contains no closing brace and has no opening brace at either end. *)
Theorem namespace_invariance
    (float_of_str : string -> option float)
    (et_parse : string -> ET.parse_outcome)
    (plain_path ns_path ns : string) (root : ET.Element) :
  plain_namespace ns ->
  startswith (ET.tag root) "gpx" = true ->
  et_parse plain_path = ET.Parsed root ->
  et_parse ns_path = ET.Parsed (qualify ns root) ->
  parse_gpx float_of_str et_parse ns_path
  = parse_gpx float_of_str et_parse plain_path.
Proof.
  intros Hns Hroot Hplain Hqual. unfold parse_gpx.
  rewrite Hplain, Hqual. cbn [ET.getroot].
  rewrite (parse_root_qualify float_of_str ns Hns root Hroot). reflexivity.
Qed.

Example parse_gpx_sample :
  parse_gpx Literals.float_of_str sample_files "track.gpx"
  = Ret (Some [(Sample.f1, Sample.f2, Sample.f9);
               (Sample.f3, Sample.f3, Sample.f0)]).
Proof. vm_compute. reflexivity. Qed.

Lemma namespace_invariance_witness :
  plain_namespace Sample.gpx_ns
  /\ startswith (ET.tag Sample.gpx_doc) "gpx" = true
  /\ sample_files "track.gpx" = ET.Parsed Sample.gpx_doc
  /\ sample_files "track_ns.gpx"
     = ET.Parsed (qualify Sample.gpx_ns Sample.gpx_doc)
  /\ parse_gpx Literals.float_of_str sample_files "track_ns.gpx"
     = parse_gpx Literals.float_of_str sample_files "track.gpx".
Proof.
  assert (Hns : plain_namespace Sample.gpx_ns)
    by (repeat split; vm_compute; reflexivity).
  split; [exact Hns|]. split; [reflexivity|].
  split; [reflexivity|]. split; [reflexivity|].
  apply (namespace_invariance Literals.float_of_str sample_files
           "track.gpx" "track_ns.gpx" Sample.gpx_ns Sample.gpx_doc);
    [exact Hns|reflexivity|reflexivity|reflexivity].
Defined.

(** Under a namespaced root that is not named [gpx] no namespace is
    detected, the bare tag [trkpt] matches no element, and the reader
    returns no point; the same track without the namespace gives two. *)
Lemma namespace_invariance_other_root :
  parse_gpx Literals.float_of_str sample_files "trk.xml"
  = Ret (Some [(Sample.f1, Sample.f2, Sample.f9);
               (Sample.f3, Sample.f3, Sample.f0)])
  /\ parse_gpx Literals.float_of_str sample_files "trk_ns.xml" = Ret (Some [])
  /\ parse_gpx Literals.float_of_str sample_files "trk_ns.xml"
     <> parse_gpx Literals.float_of_str sample_files "trk.xml".
Proof. vm_compute. repeat split. discriminate. Qed.

(** ** The driver *)

Section Driver.

Variable float_of_str : string -> option float.
Variable int_of_str : string -> option Z.
Variable w : world.

Lemma argv_eight (argv : list string) :
  8 <= len argv ->
  exists a0 a1 a2 a3 a4 a5 a6 a7 rest,
    argv = a0 :: a1 :: a2 :: a3 :: a4 :: a5 :: a6 :: a7 :: rest.
Proof.
  unfold len. intros H.
  do 8 (destruct argv as [|? argv]; [simpl in H; lia|]).
  eauto 10.
Qed.

(** What the validation of lines 169-180 returns on a command line of at
    least eight words. *)
Lemma read_numbers_eight (a0 a1 a2 a3 a4 a5 a6 a7 : string)
    (rest : list string) :
  read_numbers float_of_str int_of_str
    (a0 :: a1 :: a2 :: a3 :: a4 :: a5 :: a6 :: a7 :: rest)
  = match int_of_str a2 with
    | None => sys_exit 1
    | Some step =>
        if step <? 1 then sys_exit 1
        else match float_of_str a3, float_of_str a4,
                   float_of_str a5, float_of_str a6 with
             | Some lat1, Some lon1, Some lat2, Some lon2 =>
                 Ret (step, lat1, lon1, lat2, lon2)
             | _, _, _, _ => sys_exit 1
             end
    end.
Proof.
  unfold read_numbers, py_int, py_float.
  change (getitem (a0 :: a1 :: a2 :: a3 :: a4 :: a5 :: a6 :: a7 :: rest) 2)
    with (Ret (A := string) a2).
  change (getitem (a0 :: a1 :: a2 :: a3 :: a4 :: a5 :: a6 :: a7 :: rest) 3)
    with (Ret (A := string) a3).
  change (getitem (a0 :: a1 :: a2 :: a3 :: a4 :: a5 :: a6 :: a7 :: rest) 4)
    with (Ret (A := string) a4).
  change (getitem (a0 :: a1 :: a2 :: a3 :: a4 :: a5 :: a6 :: a7 :: rest) 5)
    with (Ret (A := string) a5).
  change (getitem (a0 :: a1 :: a2 :: a3 :: a4 :: a5 :: a6 :: a7 :: rest) 6)
    with (Ret (A := string) a6).
  cbn [mbind res_bind].
  destruct (int_of_str a2) as [step|]; [|reflexivity].
  cbn [mbind res_bind]. destruct (step <? 1); [reflexivity|].
  destruct (float_of_str a3); [|reflexivity]. cbn [mbind res_bind].
  destruct (float_of_str a4); [|reflexivity]. cbn [mbind res_bind].
  destruct (float_of_str a5); [|reflexivity]. cbn [mbind res_bind].
  destruct (float_of_str a6); reflexivity.
Qed.

Lemma main_eight (a0 a1 a2 a3 a4 a5 a6 a7 : string) (rest : list string)
    (log : list event) :
  main float_of_str int_of_str w
       (a0 :: a1 :: a2 :: a3 :: a4 :: a5 :: a6 :: a7 :: rest) log
  = match read_numbers float_of_str int_of_str
            (a0 :: a1 :: a2 :: a3 :: a4 :: a5 :: a6 :: a7 :: rest) with
    | Ret (step, lat1, lon1, lat2, lon2) =>
        pipeline float_of_str w a1 a7 step lat1 lon1 lat2 lon2 log
    | Raise e => (Raise e, log)
    end.
Proof.
  unfold main.
  replace (len (a0 :: a1 :: a2 :: a3 :: a4 :: a5 :: a6 :: a7 :: rest) <? 8)
    with false
    by (symmetry; apply Z.ltb_ge; unfold len; cbn [length]; lia).
  change (getitem (a0 :: a1 :: a2 :: a3 :: a4 :: a5 :: a6 :: a7 :: rest) 1)
    with (Ret (A := string) a1).
  change (getitem (a0 :: a1 :: a2 :: a3 :: a4 :: a5 :: a6 :: a7 :: rest) 7)
    with (Ret (A := string) a7).
  unfold mbind at 1 2 3, io_bind, lift.
  destruct (read_numbers _ _ _) as [[[[[step lat1] lon1] lat2] lon2]|e];
    reflexivity.
Qed.

(** Exit 1: bad arguments end the run before any file is touched. *)
Lemma main_bad_arguments (argv : list string) (log : list event) :
  bad_arguments float_of_str int_of_str argv ->
  main float_of_str int_of_str w argv log = (Raise (SystemExit 1), log).
Proof.
  intros Hbad.
  destruct (Z.ltb_spec (len argv) 8) as [Hlt|Hge].
  { unfold main. apply Z.ltb_lt in Hlt. rewrite Hlt. reflexivity. }
  destruct (argv_eight argv Hge)
    as (a0 & a1 & a2 & a3 & a4 & a5 & a6 & a7 & rest & ->).
  rewrite main_eight, read_numbers_eight.
  unfold bad_arguments, arg_int, arg_float in Hbad.
  destruct Hbad as [H|[H|[(n & H & Hn)|(k & Hk & H)]]].
  - lia.
  - cbn in H. rewrite H. reflexivity.
  - cbn in H. rewrite H.
    destruct (Z.ltb_spec n 1); [reflexivity|lia].
  - destruct (int_of_str a2) as [step|]; [|reflexivity].
    destruct (step <? 1); [reflexivity|].
    assert (Hcase : k = 3%nat \/ k = 4%nat \/ k = 5%nat \/ k = 6%nat) by lia.
    destruct Hcase as [ -> | [ -> | [ -> | -> ] ] ]; cbn in H; rewrite H;
      repeat (destruct (float_of_str _); try reflexivity).
Qed.

(** Valid arguments lead to the three stages. *)
Lemma main_good_arguments (argv : list string) (a : arguments)
    (log : list event) :
  good_arguments float_of_str int_of_str argv a ->
  main float_of_str int_of_str w argv log
  = pipeline float_of_str w (arg_gpx_file a) (arg_output_plan a) (arg_step a)
             (arg_lat1 a) (arg_lon1 a) (arg_lat2 a) (arg_lon2 a) log.
Proof.
  intros (Hge & H1 & H7 & H2 & Hs & H3 & H4 & H5 & H6).
  destruct (argv_eight argv Hge)
    as (a0 & a1 & a2 & a3 & a4 & a5 & a6 & a7 & rest & ->).
  rewrite main_eight, read_numbers_eight.
  unfold arg_int, arg_float in *. cbn in H1, H7, H2, H3, H4, H5, H6.
  injection H1 as H1. injection H7 as H7. subst a1 a7.
  rewrite H2, H3, H4, H5, H6.
  destruct (Z.ltb_spec (arg_step a) 1); [lia|reflexivity].
Qed.

End Driver.

Section Stages.

Variable float_of_str : string -> option float.
Variable w : world.
Variables gpx_file output_plan : string.
Variable step : Z.
Variables lat1 lon1 lat2 lon2 : float.

(** Exit 2: [ET.parse] raises [ParseError] or [FileNotFoundError], or no
    usable point was read. *)
Lemma pipeline_unusable_input (log : list event) :
  unusable_input float_of_str w gpx_file ->
  pipeline float_of_str w gpx_file output_plan step lat1 lon1 lat2 lon2 log
  = (Raise (SystemExit 2), log).
Proof.
  unfold pipeline, parse_gpx, mbind at 1, io_bind, lift.
  intros [H|[H|(root & H & Hroot)]]; rewrite H.
  - reflexivity.
  - reflexivity.
  - rewrite Hroot. reflexivity.
Qed.

(** Any other exception of [ET.parse] is not caught and leaves the
    stages. *)
Lemma pipeline_uncaught (e : exn) (log : list event) :
  ET.getroot (et_parse w gpx_file) = Raise e ->
  is_ParseError e = false ->
  is_FileNotFoundError e = false ->
  pipeline float_of_str w gpx_file output_plan step lat1 lon1 lat2 lon2 log
  = (Raise e, log).
Proof.
  intros H Hp Hf. unfold pipeline, parse_gpx, mbind at 1, io_bind, lift.
  rewrite H, Hp, Hf. reflexivity.
Qed.

(** Exit 0 without output: every point is outside the box. *)
Lemma pipeline_empty_box (coords : list point) (log : list event) :
  parse_gpx float_of_str (et_parse w) gpx_file = Ret (Some coords) ->
  coords <> [] ->
  filter_coords_by_bbox (Some coords) lat1 lon1 lat2 lon2 = [] ->
  pipeline float_of_str w gpx_file output_plan step lat1 lon1 lat2 lon2 log
  = (Raise (SystemExit 0), log).
Proof.
  intros Hparse Hne Hbox. unfold pipeline, mbind at 1, io_bind, lift.
  rewrite Hparse. destruct coords as [|p coords]; [contradiction|].
  rewrite Hbox. reflexivity.
Qed.

(** Exit 4: no plan. *)
Lemma save_plan_None (log : list event) :
  save_plan w output_plan None log = (Raise (SystemExit 4), log).
Proof. reflexivity. Qed.

(** The write of a plan built by [make_plan]: exit 5 when it raises. *)
Lemma save_plan_make_plan (items home : list value) (log : list event) :
  save_plan w output_plan (Some (make_plan items home)) log
  = write_result w output_plan (make_plan items home) log.
Proof.
  unfold save_plan, mbind at 1, io_bind, io_try_except, open_dump, lift,
    write_result.
  destruct (open_error w output_plan); [reflexivity|].
  destruct (dump_error w output_plan); reflexivity.
Qed.

(** Some point is inside the box: the plan is built and written. *)
Lemma pipeline_plan (coords : list point) (log : list event) :
  parse_gpx float_of_str (et_parse w) gpx_file = Ret (Some coords) ->
  coords <> [] ->
  filter_coords_by_bbox (Some coords) lat1 lon1 lat2 lon2 <> [] ->
  1 <= step ->
  exists plan : value,
    create_plan_json
      (Some (filter_coords_by_bbox (Some coords) lat1 lon1 lat2 lon2))
      step (S754_zero false) (float_of_Z 2) = Ret (Some plan)
    /\ pipeline float_of_str w gpx_file output_plan step
                lat1 lon1 lat2 lon2 log
       = write_result w output_plan plan log.
Proof.
  intros Hparse Hne Hbox Hs. unfold pipeline, mbind at 1, io_bind, lift.
  rewrite Hparse. destruct coords as [|p coords]; [contradiction|].
  destruct (filter_coords_by_bbox (Some (p :: coords)) lat1 lon1 lat2 lon2)
    as [|p0 rest]; [contradiction|].
  destruct (create_plan_json_ok (S754_zero false) (float_of_Z 2) p0 rest
              step Hs) as (items & Hrun & _).
  eexists. split; [exact Hrun|].
  unfold mbind at 1, io_bind. rewrite Hrun. apply save_plan_make_plan.
Qed.

End Stages.

(** A command line is either bad or valid. *)
Lemma arguments_cases
    (float_of_str : string -> option float) (int_of_str : string -> option Z)
    (argv : list string) :
  bad_arguments float_of_str int_of_str argv
  \/ exists a : arguments, good_arguments float_of_str int_of_str argv a.
Proof.
  destruct (Z.ltb_spec (len argv) 8) as [Hlt|Hge]; [left; left; exact Hlt|].
  destruct (argv_eight argv Hge)
    as (a0 & a1 & a2 & a3 & a4 & a5 & a6 & a7 & rest & ->).
  unfold bad_arguments, good_arguments, arg_int, arg_float.
  destruct (int_of_str a2) as [n|] eqn:E2;
    [|left; right; left; cbn; rewrite E2; reflexivity].
  destruct (Z.ltb_spec n 1) as [Hn|Hn].
  { left. right. right. left. exists n. cbn. rewrite E2.
    split; [reflexivity|lia]. }
  destruct (float_of_str a3) as [x3|] eqn:E3;
    [|left; do 3 right; exists 3%nat; cbn; rewrite E3;
      split; [lia|reflexivity]].
  destruct (float_of_str a4) as [x4|] eqn:E4;
    [|left; do 3 right; exists 4%nat; cbn; rewrite E4;
      split; [lia|reflexivity]].
  destruct (float_of_str a5) as [x5|] eqn:E5;
    [|left; do 3 right; exists 5%nat; cbn; rewrite E5;
      split; [lia|reflexivity]].
  destruct (float_of_str a6) as [x6|] eqn:E6;
    [|left; do 3 right; exists 6%nat; cbn; rewrite E6;
      split; [lia|reflexivity]].
  right. exists (Build_arguments a1 a7 n x3 x4 x5 x6). cbn.
  rewrite E2, E3, E4, E5, E6. repeat split; try reflexivity; assumption.
Qed.

(** The sample floats are binary64 values. *)
Example sample_floats_binary64 :
  forallb (valid_binary 53 1024)
          [Sample.f0; Sample.f1; Sample.f2; Sample.f3; Sample.f9] = true.
Proof. vm_compute. reflexivity. Qed.

(** What [ET.parse] raises is never [SystemExit]: an exception of it that
    reaches the top level ends the process with status 1. *)
Lemma getroot_status (o : ET.parse_outcome) (e : exn) :
  ET.getroot o = Raise e -> exit_status (Raise e) = 1.
Proof.
  destruct o as [root| |k| |]; cbn [ET.getroot]; intros H;
    try discriminate; injection H as <-; reflexivity.
Qed.


(** The exit statuses 0, 1, 2 and 5 on the sample world. *)
Example run_success :
  run Literals.float_of_str Literals.int_of_str sample_world
      (sample_argv "track.gpx" "2" "0" "0" "5" "5" "out.plan")
  = (0, [("out.plan"%string,
          make_plan [make_item 1 Sample.f1 Sample.f2 Sample.f0 Sample.f2]
                    [VFloat Sample.f1; VFloat Sample.f2; VFloat Sample.f0])]).
Proof. vm_compute. reflexivity. Qed.

Example run_empty_box :
  run Literals.float_of_str Literals.int_of_str sample_world
      (sample_argv "track.gpx" "2" "7" "7" "5" "5" "out.plan") = (0, []).
Proof. vm_compute. reflexivity. Qed.

Example run_zero_stride :
  run Literals.float_of_str Literals.int_of_str sample_world
      (sample_argv "track.gpx" "0" "0" "0" "5" "5" "out.plan") = (1, []).
Proof. vm_compute. reflexivity. Qed.

Example run_missing_file :
  run Literals.float_of_str Literals.int_of_str sample_world
      (sample_argv "missing.gpx" "2" "0" "0" "5" "5" "out.plan") = (2, []).
Proof. vm_compute. reflexivity. Qed.

Example run_write_failure :
  run Literals.float_of_str Literals.int_of_str sample_world
      (sample_argv "track.gpx" "2" "0" "0" "5" "5" "/plan") = (5, []).
Proof. vm_compute. reflexivity. Qed.

(** A device without room: the file is opened, the dump fails. *)
Example run_full_device :
  run_log Literals.float_of_str Literals.int_of_str sample_world
      (sample_argv "track.gpx" "2" "0" "0" "5" "5" "/dev/full")
  = (5, [Opened "/dev/full"]).
Proof. vm_compute. reflexivity. Qed.

(** An XML declaration with an unknown encoding: [LookupError] is not
    caught. *)
Example run_unknown_encoding :
  main Literals.float_of_str Literals.int_of_str sample_world
       (sample_argv "klingon.gpx" "2" "0" "0" "5" "5" "out.plan") []
  = (Raise LookupError, [])
  /\ run_log Literals.float_of_str Literals.int_of_str sample_world
         (sample_argv "klingon.gpx" "2" "0" "0" "5" "5" "out.plan")
     = (1, []).
Proof. vm_compute. split; reflexivity. Qed.



(** ** Further properties of the bounding-box filter *)

Section FloatBounds.

Lemma SFcompare_refl (a : float) :
  is_nan a = false -> SFcompare a a = Some Eq.
Proof.
  destruct a as [s|s| |s m e]; try destruct s; simpl; intros H;
    try reflexivity; try discriminate.
  - rewrite Z.compare_refl.
    change (Pos.compare_cont Eq m m) with (Pos.compare m m).
    rewrite Pos.compare_refl. reflexivity.
  - rewrite Z.compare_refl.
    change (Pos.compare_cont Eq m m) with (Pos.compare m m).
    rewrite Pos.compare_refl. reflexivity.
Qed.

Lemma fle_not_nan (a b : float) :
  fle a b = true -> is_nan a = false /\ is_nan b = false.
Proof.
  unfold fle, SFleb. destruct a, b; simpl; intros H;
    try discriminate; split; reflexivity.
Qed.

Lemma fle_refl (a : float) : is_nan a = false -> fle a a = true.
Proof.
  intros H. unfold fle, SFleb. rewrite SFcompare_refl by exact H.
  reflexivity.
Qed.

(** [min] is below and [max] is above both arguments when neither is NaN. *)
Lemma min_max_bounds (a b : float) :
  is_nan a = false -> is_nan b = false ->
  fle (Py.min a b) a = true /\ fle (Py.min a b) b = true
  /\ fle a (Py.max a b) = true /\ fle b (Py.max a b) = true.
Proof.
  intros Ha Hb. unfold Py.min, Py.max, flt, fgt, SFltb.
  destruct (SFcompare_total a b Ha Hb) as [c Hc].
  rewrite (SFcompare_swap a b), Hc. cbn [fmap option_fmap option_map].
  pose proof (fle_refl a Ha) as Haa. pose proof (fle_refl b Hb) as Hbb.
  assert (Hba : SFcompare b a = Some (CompOpp c))
    by (rewrite (SFcompare_swap a b), Hc; reflexivity).
  destruct c; cbn [CompOpp] in *; unfold fle, SFleb in *;
    rewrite ?Hc, ?Hba; repeat split; try reflexivity; assumption.
Qed.

(** Both bounds equal: the interval holds the floats that compare equal. *)
Lemma fle_both (a x : float) : fle a x && fle x a = SFeqb x a.
Proof.
  unfold fle, SFleb, SFeqb. rewrite (SFcompare_swap x a).
  destruct (SFcompare x a) as [[| |]|]; reflexivity.
Qed.

Lemma min_same (a : float) : Py.min a a = a.
Proof. unfold Py.min. destruct (flt a a); reflexivity. Qed.

Lemma max_same (a : float) : Py.max a a = a.
Proof. unfold Py.max. destruct (fgt a a); reflexivity. Qed.

Lemma min_nan_l (a b : float) : is_nan a = true -> Py.min a b = a.
Proof.
  intros H. unfold Py.min, flt, SFltb.
  rewrite (SFcompare_nan_r b a H). reflexivity.
Qed.

Lemma fle_nan_l (a x : float) : is_nan a = true -> fle a x = false.
Proof.
  intros H. unfold fle, SFleb. rewrite (SFcompare_nan_l a x H). reflexivity.
Qed.

End FloatBounds.

(** X1. Filtering a filtered list again with the same corners changes
    nothing. *)
Theorem filter_idempotent
    (coords : option (list point)) (lat1 lon1 lat2 lon2 : float) :
  filter_coords_by_bbox
    (Some (filter_coords_by_bbox coords lat1 lon1 lat2 lon2))
    lat1 lon1 lat2 lon2
  = filter_coords_by_bbox coords lat1 lon1 lat2 lon2.
Proof.
  destruct coords as [coords|]; [|reflexivity].
  rewrite !filter_coords_by_bbox_filter.
  induction coords as [|p coords IH]; [reflexivity|].
  simpl. destruct (in_bbox lat1 lon1 lat2 lon2 p) eqn:E; [|exact IH].
  simpl. rewrite E, IH. reflexivity.
Qed.

(** X2. The filter of two tracks put end to end is the filter of the
    first followed by the filter of the second. *)
Theorem filter_concatenation
    (coords1 coords2 : list point) (lat1 lon1 lat2 lon2 : float) :
  filter_coords_by_bbox (Some (coords1 ++ coords2)) lat1 lon1 lat2 lon2
  = filter_coords_by_bbox (Some coords1) lat1 lon1 lat2 lon2
    ++ filter_coords_by_bbox (Some coords2) lat1 lon1 lat2 lon2.
Proof. rewrite !filter_coords_by_bbox_filter. apply List.filter_app. Qed.

(** X3. The two diagonals of a rectangle select the same points: the
    corners [(lat1, lon1)], [(lat2, lon2)] and the corners [(lat1, lon2)],
    [(lat2, lon1)] give the same result when the two longitudes are both
    NaN or both not NaN. *)
Theorem filter_other_diagonal
    (coords : option (list point)) (lat1 lon1 lat2 lon2 : float) :
  is_nan lon1 = is_nan lon2 ->
  filter_coords_by_bbox coords lat1 lon1 lat2 lon2
  = filter_coords_by_bbox coords lat1 lon2 lat2 lon1.
Proof.
  intros Hlon. destruct coords as [coords|]; [|reflexivity].
  rewrite !filter_coords_by_bbox_filter. apply filter_ext. intros p.
  unfold in_bbox.
  rewrite (fle_min_swap lon1 lon2), (fle_max_swap lon1 lon2) by assumption.
  reflexivity.
Qed.

Lemma filter_other_diagonal_witness :
  is_nan Sample.f1 = is_nan Sample.f3
  /\ filter_coords_by_bbox (Some [Sample.p11; Sample.p22; Sample.p33])
       Sample.f1 Sample.f1 Sample.f2 Sample.f3
     = filter_coords_by_bbox (Some [Sample.p11; Sample.p22; Sample.p33])
         Sample.f1 Sample.f3 Sample.f2 Sample.f1.
Proof.
  split; [reflexivity|].
  apply (filter_other_diagonal (Some [Sample.p11; Sample.p22; Sample.p33])
           Sample.f1 Sample.f1 Sample.f2 Sample.f3).
  reflexivity.
Defined.

(** X4. A point whose latitude or longitude is NaN is never retained. *)
Theorem filter_excludes_nan
    (coords : list point) (lat1 lon1 lat2 lon2 : float) (p : point) :
  p ∈ filter_coords_by_bbox (Some coords) lat1 lon1 lat2 lon2 ->
  is_nan (lat_of p) = false /\ is_nan (lon_of p) = false.
Proof.
  rewrite filter_coords_by_bbox_filter, list_elem_of_In, filter_In.
  intros [_ H]. unfold in_bbox in H.
  apply andb_prop in H as [Hlat Hlon].
  apply andb_prop in Hlat as [Hlat _]. apply andb_prop in Hlon as [Hlon _].
  split; [exact (proj2 (fle_not_nan _ _ Hlat))
         |exact (proj2 (fle_not_nan _ _ Hlon))].
Qed.

Lemma filter_excludes_nan_witness :
  Sample.p22 ∈ filter_coords_by_bbox (Some [Sample.p11; Sample.p22])
                 Sample.f2 Sample.f1 Sample.f3 Sample.f3
  /\ is_nan (lat_of Sample.p22) = false
  /\ is_nan (lon_of Sample.p22) = false.
Proof.
  assert (H : Sample.p22 ∈ filter_coords_by_bbox
                (Some [Sample.p11; Sample.p22])
                Sample.f2 Sample.f1 Sample.f3 Sample.f3)
    by (vm_compute; left).
  split; [exact H|].
  exact (filter_excludes_nan [Sample.p11; Sample.p22]
           Sample.f2 Sample.f1 Sample.f3 Sample.f3 Sample.p22 H).
Defined.

(** X5. When the latitude or the longitude of the first corner is NaN the
    result is empty, whatever the points and the second corner. *)
Theorem filter_nan_first_corner
    (coords : option (list point)) (lat1 lon1 lat2 lon2 : float) :
  is_nan lat1 = true \/ is_nan lon1 = true ->
  filter_coords_by_bbox coords lat1 lon1 lat2 lon2 = [].
Proof.
  intros H. destruct coords as [coords|]; [|reflexivity].
  rewrite filter_coords_by_bbox_filter.
  induction coords as [|p coords IH]; [reflexivity|].
  simpl. rewrite IH.
  assert (E : in_bbox lat1 lon1 lat2 lon2 p = false).
  { unfold in_bbox. destruct H as [H|H].
    - rewrite (min_nan_l lat1 lat2 H), (fle_nan_l lat1 _ H). reflexivity.
    - rewrite (min_nan_l lon1 lon2 H), (fle_nan_l lon1 _ H).
      apply andb_false_r. }
  rewrite E. reflexivity.
Qed.

Lemma filter_nan_first_corner_witness :
  (is_nan S754_nan = true \/ is_nan Sample.f1 = true)
  /\ filter_coords_by_bbox (Some [Sample.p11; Sample.p22])
       S754_nan Sample.f1 Sample.f3 Sample.f3 = [].
Proof.
  split; [left; reflexivity|].
  apply (filter_nan_first_corner (Some [Sample.p11; Sample.p22])
           S754_nan Sample.f1 Sample.f3 Sample.f3).
  left. reflexivity.
Defined.

(** X6. Points on the boundary are retained: with corners free of NaN,
    points at the four corners of the rectangle all pass the filter,
    whatever their altitude. *)
Theorem filter_keeps_corners (lat1 lon1 lat2 lon2 alt : float) :
  is_nan lat1 = false -> is_nan lon1 = false ->
  is_nan lat2 = false -> is_nan lon2 = false ->
  filter_coords_by_bbox
    (Some [(lat1, lon1, alt); (lat2, lon2, alt);
           (lat1, lon2, alt); (lat2, lon1, alt)])
    lat1 lon1 lat2 lon2
  = [(lat1, lon1, alt); (lat2, lon2, alt);
     (lat1, lon2, alt); (lat2, lon1, alt)].
Proof.
  intros Ha1 Ho1 Ha2 Ho2. rewrite filter_coords_by_bbox_filter.
  destruct (min_max_bounds lat1 lat2 Ha1 Ha2) as (A1 & A2 & A3 & A4).
  destruct (min_max_bounds lon1 lon2 Ho1 Ho2) as (O1 & O2 & O3 & O4).
  unfold List.filter, in_bbox, lat_of, lon_of. cbn [fst snd].
  rewrite A1, A2, A3, A4, O1, O2, O3, O4. reflexivity.
Qed.

Lemma filter_keeps_corners_witness :
  is_nan Sample.f1 = false /\ is_nan Sample.f2 = false
  /\ is_nan Sample.f3 = false /\ is_nan Sample.f9 = false
  /\ filter_coords_by_bbox
       (Some [(Sample.f1, Sample.f2, Sample.f0);
              (Sample.f3, Sample.f9, Sample.f0);
              (Sample.f1, Sample.f9, Sample.f0);
              (Sample.f3, Sample.f2, Sample.f0)])
       Sample.f1 Sample.f2 Sample.f3 Sample.f9
     = [(Sample.f1, Sample.f2, Sample.f0);
        (Sample.f3, Sample.f9, Sample.f0);
        (Sample.f1, Sample.f9, Sample.f0);
        (Sample.f3, Sample.f2, Sample.f0)].
Proof.
  do 4 (split; [reflexivity|]).
  apply (filter_keeps_corners Sample.f1 Sample.f2 Sample.f3 Sample.f9
           Sample.f0); reflexivity.
Defined.

(** X7. A box of zero area, both corners at [(lat, lon)], retains exactly
    the points whose latitude and longitude compare equal to [lat] and
    [lon]. *)
Theorem filter_zero_area (coords : list point) (lat lon : float) :
  filter_coords_by_bbox (Some coords) lat lon lat lon
  = List.filter (fun p => SFeqb (lat_of p) lat && SFeqb (lon_of p) lon)
                coords.
Proof.
  rewrite filter_coords_by_bbox_filter. apply filter_ext. intros p.
  unfold in_bbox. rewrite !min_same, !max_same, !fle_both. reflexivity.
Qed.

(** ** Further properties of the plan builder *)

Section Sampling.

Context {A : Type}.

Lemma every_from_lookup (step : nat) (l : list A) :
  (1 <= step)%nat ->
  forall skip k : nat,
    every_from skip step l !! k = l !! (skip + k * step)%nat.
Proof.
  intros Hs. induction l as [|x r IH]; intros skip k.
  - simpl. rewrite !lookup_nil. reflexivity.
  - destruct skip as [|skip]; cbn [every_from].
    + destruct k as [|k]; [reflexivity|].
      cbn [lookup list_lookup]. rewrite IH.
      replace (0 + S k * step)%nat with (S (step - 1 + k * step)) by lia.
      reflexivity.
    + rewrite IH. reflexivity.
Qed.

Lemma every_lookup (step : nat) (l : list A) (k : nat) :
  (1 <= step)%nat -> every step l !! k = l !! (k * step)%nat.
Proof.
  intros Hs. unfold every. rewrite every_from_lookup by exact Hs.
  reflexivity.
Qed.

Lemma every_from_short (step skip : nat) (l : list A) :
  (length l <= skip)%nat -> every_from skip step l = [].
Proof.
  revert skip. induction l as [|x r IH]; intros skip H; [reflexivity|].
  simpl in H. destruct skip as [|skip]; [lia|].
  cbn [every_from]. apply IH. lia.
Qed.

(** Sampling a sample: every [s2]-th of every [s1]-th element is every
    [(s1 * s2)]-th element. *)
Lemma every_every (s1 s2 : nat) (l : list A) :
  (1 <= s1)%nat -> (1 <= s2)%nat ->
  every s2 (every s1 l) = every (s1 * s2) l.
Proof.
  intros H1 H2. apply list_eq. intros k.
  rewrite !every_lookup by nia. f_equal. lia.
Qed.

End Sampling.

Section ClosedForm.

Variables default_alt acceptance_radius : float.

(** The items of the plan are the numbered waypoints of the sampled
    points. *)
Lemma items_are_waypoints (p0 : point) (rest : list point) (step : Z)
    (items : list value) :
  1 <= step ->
  len items = 1 + (len (p0 :: rest) - 1) / step ->
  (forall k : nat, (k < length items)%nat ->
     exists p, (p0 :: rest) !! Z.to_nat (Z.of_nat k * step) = Some p
       /\ items !! k
          = Some (make_item (Z.of_nat k + 1) (lat_of p) (lon_of p)
                            default_alt acceptance_radius)) ->
  items = waypoints default_alt acceptance_radius
            (every (Z.to_nat step) (p0 :: rest)).
Proof.
  intros Hs Hlen Hat. apply list_eq. intros k.
  unfold waypoints. rewrite list_lookup_imap, every_lookup by lia.
  assert (HL : 1 <= len (p0 :: rest)) by (unfold len; cbn [length]; lia).
  replace (k * Z.to_nat step)%nat with (Z.to_nat (Z.of_nat k * step)) by lia.
  destruct (Nat.lt_ge_cases k (length items)) as [Hk|Hk].
  - destruct (Hat k Hk) as (p & Hp & Hi). rewrite Hi, Hp. reflexivity.
  - rewrite (lookup_ge_None_2 items k Hk).
    destruct (count_is_ceiling (len (p0 :: rest)) step HL Hs) as [_ Hb].
    rewrite <- Hlen in Hb. unfold len in Hb, HL.
    rewrite lookup_ge_None_2; [reflexivity|]. nia.
Qed.

Lemma create_plan_json_closed (p0 : point) (rest : list point) (step : Z) :
  1 <= step ->
  create_plan_json (Some (p0 :: rest)) step default_alt acceptance_radius
  = Ret (Some (make_plan
                 (waypoints default_alt acceptance_radius
                            (every (Z.to_nat step) (p0 :: rest)))
                 [VFloat (lat_of p0); VFloat (lon_of p0);
                  VFloat default_alt])).
Proof.
  intros Hs.
  destruct (create_plan_json_ok default_alt acceptance_radius p0 rest step Hs)
    as (items & Hrun & Hlen & Hat).
  rewrite Hrun. do 3 f_equal.
  apply items_are_waypoints; assumption.
Qed.

End ClosedForm.

(** X8. For a non-empty list and a stride of at least 1 the plan is given
    in closed form: its items are the waypoints of the slice
    [coords[::step]], numbered from 1 and all at the default altitude, and
    its home position is the position of the first point of the list. *)
Theorem plan_of_sampled_points
    (coords : list point) (p0 : point) (step : Z)
    (default_alt acceptance_radius : float) :
  coords !! 0%nat = Some p0 ->
  1 <= step ->
  create_plan_json (Some coords) step default_alt acceptance_radius
  = Ret (Some (make_plan
                 (waypoints default_alt acceptance_radius
                            (every (Z.to_nat step) coords))
                 [VFloat (lat_of p0); VFloat (lon_of p0);
                  VFloat default_alt])).
Proof.
  intros H0 Hs. destruct coords as [|p rest]; [discriminate|].
  injection H0 as ->. apply create_plan_json_closed. exact Hs.
Qed.

Lemma plan_of_sampled_points_witness :
  [Sample.p11; Sample.p22; Sample.p33] !! 0%nat = Some Sample.p11
  /\ 1 <= 2
  /\ create_plan_json (Some [Sample.p11; Sample.p22; Sample.p33]) 2
                      Sample.f0 Sample.f2
     = Ret (Some (make_plan
                    (waypoints Sample.f0 Sample.f2
                       (every (Z.to_nat 2)
                              [Sample.p11; Sample.p22; Sample.p33]))
                    [VFloat (lat_of Sample.p11); VFloat (lon_of Sample.p11);
                     VFloat Sample.f0])).
Proof.
  split; [reflexivity|]. split; [lia|].
  apply (plan_of_sampled_points [Sample.p11; Sample.p22; Sample.p33]
           Sample.p11 2 Sample.f0 Sample.f2); [reflexivity|lia].
Defined.

(** X9. Strides compose: building with stride [s2] from the slice
    [coords[::s1]] gives the same result as building with stride
    [s1 * s2] from [coords]. *)
Theorem stride_composition
    (coords : list point) (s1 s2 : Z)
    (default_alt acceptance_radius : float) :
  1 <= s1 ->
  1 <= s2 ->
  create_plan_json (Some (every (Z.to_nat s1) coords)) s2
                   default_alt acceptance_radius
  = create_plan_json (Some coords) (s1 * s2) default_alt acceptance_radius.
Proof.
  intros H1 H2. destruct coords as [|p0 rest]; [reflexivity|].
  rewrite (create_plan_json_closed _ _ p0 rest (s1 * s2)) by nia.
  change (every (Z.to_nat s1) (p0 :: rest))
    with (p0 :: every_from (Z.to_nat s1 - 1) (Z.to_nat s1) rest).
  rewrite create_plan_json_closed by exact H2.
  change (p0 :: every_from (Z.to_nat s1 - 1) (Z.to_nat s1) rest)
    with (every (Z.to_nat s1) (p0 :: rest)).
  rewrite every_every by lia.
  rewrite Z2Nat.inj_mul by lia. reflexivity.
Qed.

Lemma stride_composition_witness :
  1 <= 2 /\ 1 <= 3
  /\ create_plan_json
       (Some (every (Z.to_nat 2)
                [Sample.p11; Sample.p22; Sample.p33; Sample.p11;
                 Sample.p22; Sample.p33; Sample.p11]))
       3 Sample.f0 Sample.f2
     = create_plan_json
         (Some [Sample.p11; Sample.p22; Sample.p33; Sample.p11;
                Sample.p22; Sample.p33; Sample.p11])
         (2 * 3) Sample.f0 Sample.f2.
Proof.
  split; [lia|]. split; [lia|].
  apply (stride_composition
           [Sample.p11; Sample.p22; Sample.p33; Sample.p11;
            Sample.p22; Sample.p33; Sample.p11]
           2 3 Sample.f0 Sample.f2); lia.
Defined.

(** X11. A stride that reaches the length of the list selects the first
    point only: the plan has the single waypoint of that point, numbered
    1. *)
Theorem stride_beyond_length
    (p0 : point) (rest : list point) (step : Z)
    (default_alt acceptance_radius : float) :
  len (p0 :: rest) <= step ->
  create_plan_json (Some (p0 :: rest)) step default_alt acceptance_radius
  = Ret (Some (make_plan
                 [make_item 1 (lat_of p0) (lon_of p0)
                            default_alt acceptance_radius]
                 [VFloat (lat_of p0); VFloat (lon_of p0);
                  VFloat default_alt])).
Proof.
  intros H. unfold len in H. cbn [length] in H.
  rewrite create_plan_json_closed by lia.
  unfold every. cbn [every_from].
  rewrite every_from_short by lia. reflexivity.
Qed.

Lemma stride_beyond_length_witness :
  len [Sample.p22; Sample.p33] <= 2
  /\ create_plan_json (Some [Sample.p22; Sample.p33]) 2 Sample.f0 Sample.f2
     = Ret (Some (make_plan
                    [make_item 1 (lat_of Sample.p22) (lon_of Sample.p22)
                               Sample.f0 Sample.f2]
                    [VFloat (lat_of Sample.p22); VFloat (lon_of Sample.p22);
                     VFloat Sample.f0])).
Proof.
  split; [vm_compute; discriminate|].
  apply (stride_beyond_length Sample.p22 [Sample.p33] 2 Sample.f0 Sample.f2).
  vm_compute. discriminate.
Defined.

(** X12. On a non-empty list the sign of the stride decides the outcome:
    a plan for a positive stride, [ValueError] (raised by [range]) for a
    zero stride, and [None] for a negative stride, where the loop does not
    run and the check after the loop fails. *)
Theorem stride_sign
    (p0 : point) (rest : list point) (step : Z)
    (default_alt acceptance_radius : float) :
  (1 <= step <->
   exists plan : value,
     create_plan_json (Some (p0 :: rest)) step default_alt acceptance_radius
     = Ret (Some plan))
  /\ (step = 0 <->
      create_plan_json (Some (p0 :: rest)) step default_alt acceptance_radius
      = Raise ValueError)
  /\ (step < 0 <->
      create_plan_json (Some (p0 :: rest)) step default_alt acceptance_radius
      = Ret None).
Proof.
  destruct (Z.lt_trichotomy step 0) as [Hs|[->|Hs]].
  - rewrite create_plan_json_negative_step by exact Hs.
    split; [split; [lia|intros [plan H]; discriminate]|].
    split; [split; [lia|discriminate]|].
    split; [reflexivity|intros _; exact Hs].
  - rewrite create_plan_json_zero_step.
    split; [split; [lia|intros [plan H]; discriminate]|].
    split; [split; reflexivity|]. split; [lia|discriminate].
  - rewrite create_plan_json_closed by lia.
    split; [split; [eauto|lia]|].
    split; [split; [lia|discriminate]|]. split; [lia|discriminate].
Qed.

(** Waypoints are made from the positions of the points only. *)
Lemma waypoints_position (default_alt acceptance_radius : float)
    (step : nat) (l1 l2 : list point) :
  (1 <= step)%nat ->
  position <$> l1 = position <$> l2 ->
  waypoints default_alt acceptance_radius (every step l1)
  = waypoints default_alt acceptance_radius (every step l2).
Proof.
  intros Hs H. apply list_eq. intros k. unfold waypoints.
  rewrite !list_lookup_imap, !every_lookup by exact Hs.
  assert (Hk : position <$> l1 !! (k * step)%nat
               = position <$> l2 !! (k * step)%nat)
    by (rewrite <- !list_lookup_fmap, H; reflexivity).
  destruct (l1 !! (k * step)%nat) as [[[a1 o1] h1]|],
           (l2 !! (k * step)%nat) as [[[a2 o2] h2]|];
    try discriminate; [|reflexivity].
  cbv [position lat_of lon_of fmap option_fmap option_map fst snd] in Hk.
  injection Hk as -> ->. reflexivity.
Qed.

(** X10. The altitudes of the points play no part: two lists with the
    same latitudes and longitudes, in the same order, give the same
    outcome for every stride. *)
Theorem altitude_ignored
    (coords1 coords2 : list point) (step : Z)
    (default_alt acceptance_radius : float) :
  position <$> coords1 = position <$> coords2 ->
  create_plan_json (Some coords1) step default_alt acceptance_radius
  = create_plan_json (Some coords2) step default_alt acceptance_radius.
Proof.
  intros H. destruct coords1 as [|p1 r1], coords2 as [|p2 r2];
    try discriminate; [reflexivity|].
  destruct (Z.lt_trichotomy step 0) as [Hs|[->|Hs]].
  - rewrite !create_plan_json_negative_step by exact Hs. reflexivity.
  - rewrite !create_plan_json_zero_step. reflexivity.
  - rewrite !create_plan_json_closed by lia.
    rewrite (waypoints_position default_alt acceptance_radius
               (Z.to_nat step) (p1 :: r1) (p2 :: r2)) by (lia || exact H).
    injection H as Hlat Hlon _. rewrite Hlat, Hlon. reflexivity.
Qed.

Lemma altitude_ignored_witness :
  position <$> [Sample.p11; Sample.p22]
  = position <$> [(Sample.f1, Sample.f1, Sample.f9);
                  (Sample.f2, Sample.f2, Sample.f3)]
  /\ create_plan_json (Some [Sample.p11; Sample.p22]) 1 Sample.f0 Sample.f2
     = create_plan_json (Some [(Sample.f1, Sample.f1, Sample.f9);
                               (Sample.f2, Sample.f2, Sample.f3)])
                        1 Sample.f0 Sample.f2.
Proof.
  split; [reflexivity|].
  apply (altitude_ignored [Sample.p11; Sample.p22]
           [(Sample.f1, Sample.f1, Sample.f9);
            (Sample.f2, Sample.f2, Sample.f3)] 1 Sample.f0 Sample.f2).
  reflexivity.
Defined.

(** ** Further properties of the track reader *)

Section ReaderOutcome.

Variable float_of_str : string -> option float.

Lemma trkpt_step_read (ns : option string) (e : ET.Element)
    (acc : list point) (p : point) :
  read_trkpt float_of_str ns e = Ret p ->
  trkpt_step float_of_str ns acc e = Ret (acc ++ [p]).
Proof. intros H. unfold trkpt_step. rewrite H. reflexivity. Qed.

(** The loop appends the kept points to what it starts from. *)
Lemma for_each_kept (ns : option string) (cands : list ET.Element) :
  forall acc : list point,
    for_each cands (trkpt_step float_of_str ns) acc
    = Ret (acc ++ kept_points float_of_str ns cands).
Proof.
  induction cands as [|e cands IH]; intros acc.
  - simpl. rewrite app_nil_r. reflexivity.
  - cbn [for_each kept_points flat_map].
    destruct (well_formed float_of_str e) eqn:Hwf.
    + destruct (read_trkpt_well_formed float_of_str ns e Hwf)
        as (p & Hp & _).
      rewrite (trkpt_step_read ns e acc p Hp), Hp.
      cbn [mbind res_bind]. rewrite IH, <- app_assoc. reflexivity.
    + rewrite (trkpt_step_malformed float_of_str ns e acc Hwf).
      cbn [mbind res_bind]. rewrite IH.
      destruct (read_trkpt_malformed float_of_str ns e Hwf) as [-> | ->];
        reflexivity.
Qed.

Lemma parse_root_kept (root : ET.Element) :
  parse_root float_of_str root
  = Ret (kept_points float_of_str (detect_ns (ET.tag root))
           (ET.iter root (nstag (detect_ns (ET.tag root)) "trkpt"))).
Proof. unfold parse_root. apply (for_each_kept _ _ []). Qed.

Lemma nstag_not_star (ns : option string) :
  String.eqb (nstag ns "trkpt") "*" = false.
Proof.
  unfold nstag. destruct ns as [n|]; [|reflexivity].
  destruct (truthy n); reflexivity.
Qed.

End ReaderOutcome.

(** X13. [parse_gpx] returns the failure value [None] exactly when
    [ET.parse] raises [ParseError] or [FileNotFoundError]; a document
    without usable points gives the empty list instead. *)
Theorem parse_gpx_failure_value
    (float_of_str : string -> option float)
    (et_parse : string -> ET.parse_outcome) (gpx_path : string) :
  parse_gpx float_of_str et_parse gpx_path = Ret None
  <-> et_parse gpx_path = ET.NotWellFormed
      \/ et_parse gpx_path = ET.CannotOpen FileNotFoundError.
Proof.
  unfold parse_gpx.
  destruct (et_parse gpx_path) as [root| |[| | |]| |]; cbn [ET.getroot].
  - rewrite parse_root_kept. cbn [mbind res_bind].
    split; [discriminate|]. intros [H|H]; discriminate.
  - split; [left|]; reflexivity.
  - split; [right|]; reflexivity.
  - cbn. split; [discriminate|]. intros [H|H]; discriminate.
  - cbn. split; [discriminate|]. intros [H|H]; discriminate.
  - cbn. split; [discriminate|]. intros [H|H]; discriminate.
  - cbn. split; [discriminate|]. intros [H|H]; discriminate.
  - cbn. split; [discriminate|]. intros [H|H]; discriminate.
Qed.

(** X14. An exception leaves [parse_gpx] exactly when [ET.parse] raises
    it and it is neither [ParseError] nor [FileNotFoundError]: the other
    [OSError]s, and the [LookupError] and [ValueError] of an unsupported
    encoding, pass through. Once [ET.parse] has returned a tree nothing is
    raised: the [KeyError] and [ValueError] of single track points never
    escape. *)
Theorem parse_gpx_raises
    (float_of_str : string -> option float)
    (et_parse : string -> ET.parse_outcome) (gpx_path : string) (e : exn) :
  parse_gpx float_of_str et_parse gpx_path = Raise e
  <-> ET.getroot (et_parse gpx_path) = Raise e
      /\ is_ParseError e = false
      /\ is_FileNotFoundError e = false.
Proof.
  unfold parse_gpx.
  destruct (ET.getroot (et_parse gpx_path)) as [root|e'].
  - rewrite parse_root_kept. cbn [mbind res_bind].
    split; [discriminate|]. intros (H & _). discriminate.
  - destruct (is_ParseError e') eqn:Hp.
    { split; [discriminate|]. intros ([= <-] & Hp' & _). congruence. }
    destruct (is_FileNotFoundError e') eqn:Hf.
    { split; [discriminate|]. intros ([= <-] & _ & Hf'). congruence. }
    split.
    + intros [= <-]. repeat split; assumption.
    + intros ([= <-] & _). reflexivity.
Qed.

(** X15. Tracks put end to end: under a root that is not itself a track
    point, the points read from the children [cs1 ++ cs2] are the points
    read from [cs1] followed by the points read from [cs2]. *)
Theorem track_concatenation
    (float_of_str : string -> option float)
    (t : string) (a : gmap string string) (x : option string)
    (cs1 cs2 : list ET.Element) :
  String.eqb t (nstag (detect_ns t) "trkpt") = false ->
  exists pts1 pts2 : list point,
    parse_root float_of_str (ET.mkElement t a x cs1) = Ret pts1
    /\ parse_root float_of_str (ET.mkElement t a x cs2) = Ret pts2
    /\ parse_root float_of_str (ET.mkElement t a x (cs1 ++ cs2))
       = Ret (pts1 ++ pts2).
Proof.
  intros Ht. eexists _, _. rewrite !parse_root_kept.
  split; [reflexivity|]. split; [reflexivity|]. f_equal.
  cbn [ET.tag]. unfold ET.iter. rewrite nstag_not_star.
  cbn [ET.descendants List.filter ET.tag]. rewrite Ht.
  rewrite flat_map_app, List.filter_app.
  unfold kept_points. apply flat_map_app.
Qed.

Lemma track_concatenation_witness :
  String.eqb "gpx" (nstag (detect_ns "gpx") "trkpt") = false
  /\ exists pts1 pts2 : list point,
       parse_root Literals.float_of_str
         (ET.mkElement "gpx" ∅ None Sample.segment) = Ret pts1
       /\ parse_root Literals.float_of_str
            (ET.mkElement "gpx" ∅ None Sample.segment) = Ret pts2
       /\ parse_root Literals.float_of_str
            (ET.mkElement "gpx" ∅ None (Sample.segment ++ Sample.segment))
          = Ret (pts1 ++ pts2).
Proof.
  split; [reflexivity|].
  apply (track_concatenation Literals.float_of_str "gpx" ∅ None
           Sample.segment Sample.segment).
  reflexivity.
Defined.

(** X16. Round trip of the namespace helper and the detection: the
    namespace detected in a root tag built by [nstag] from a namespace
    [ns] and a local name beginning with [gpx] is [ns] again, for a
    namespace that is not empty, has no closing brace and no opening brace
    at either end. *)
Theorem namespace_round_trip (ns local : string) :
  plain_namespace ns ->
  startswith local "gpx" = true ->
  detect_ns (nstag (Some ns) local) = Some ns.
Proof.
  intros Hns Hlocal. rewrite (nstag_qualified ns Hns).
  apply detect_ns_qualified; assumption.
Qed.

Lemma namespace_round_trip_witness :
  plain_namespace Sample.gpx_ns
  /\ startswith "gpx" "gpx" = true
  /\ detect_ns (nstag (Some Sample.gpx_ns) "gpx") = Some Sample.gpx_ns.
Proof.
  assert (Hns : plain_namespace Sample.gpx_ns)
    by (repeat split; vm_compute; reflexivity).
  split; [exact Hns|]. split; [reflexivity|].
  apply (namespace_round_trip Sample.gpx_ns "gpx"); [exact Hns|reflexivity].
Defined.

Lemma filter_none {A} (f : A -> bool) (l : list A) :
  (forall x, f x = false) -> List.filter f l = [].
Proof.
  intros H. induction l as [|x l IH]; [reflexivity|].
  simpl. rewrite H. exact IH.
Qed.

(** X17. A document in a namespace whose root tag does not contain
    [}gpx] silently gives no point at all: no namespace is detected, and
    the bare tag [trkpt] matches none of the qualified elements. *)
Theorem foreign_root_no_points
    (float_of_str : string -> option float) (ns : string)
    (root : ET.Element) :
  contains "}gpx" ("{" +:+ ns +:+ "}" +:+ ET.tag root) = false ->
  parse_root float_of_str (qualify ns root) = Ret [].
Proof.
  intros H. rewrite parse_root_kept, tag_qualify.
  unfold detect_ns. rewrite H, andb_false_r. cbn [nstag].
  unfold ET.iter. cbn [String.eqb Ascii.eqb Bool.eqb].
  rewrite descendants_qualify, filter_map_comm.
  rewrite filter_none; [reflexivity|].
  intros x. rewrite tag_qualify. reflexivity.
Qed.

Lemma foreign_root_no_points_witness :
  contains "}gpx" ("{" +:+ Sample.gpx_ns +:+ "}" +:+ ET.tag Sample.trk_doc)
  = false
  /\ parse_root Literals.float_of_str (qualify Sample.gpx_ns Sample.trk_doc)
     = Ret [].
Proof.
  split; [vm_compute; reflexivity|].
  apply (foreign_root_no_points Literals.float_of_str Sample.gpx_ns
           Sample.trk_doc).
  vm_compute. reflexivity.
Defined.

(** ** Further properties of the driver *)

Section Outcomes.

Variable float_of_str : string -> option float.
Variable int_of_str : string -> option Z.
Variable w : world.

(** All the ways a run can end: an exit with status 0, 1 or 2 before any
    file is opened, an exception of [ET.parse] that nothing catches, or
    the write of the plan built from the points inside the box. *)
Lemma main_outcomes (argv : list string) :
  main float_of_str int_of_str w argv [] = (Raise (SystemExit 1), [])
  \/ main float_of_str int_of_str w argv [] = (Raise (SystemExit 2), [])
  \/ main float_of_str int_of_str w argv [] = (Raise (SystemExit 0), [])
  \/ (exists e : exn,
        exit_status (Raise e) = 1
        /\ main float_of_str int_of_str w argv [] = (Raise e, []))
  \/ (exists (a : arguments) (pts : list point) (plan : value),
        good_arguments float_of_str int_of_str argv a
        /\ parse_gpx float_of_str (et_parse w) (arg_gpx_file a)
           = Ret (Some pts)
        /\ filter_coords_by_bbox (Some pts) (arg_lat1 a) (arg_lon1 a)
                                 (arg_lat2 a) (arg_lon2 a) <> []
        /\ create_plan_json
             (Some (filter_coords_by_bbox (Some pts) (arg_lat1 a)
                      (arg_lon1 a) (arg_lat2 a) (arg_lon2 a)))
             (arg_step a) (S754_zero false) (float_of_Z 2)
           = Ret (Some plan)
        /\ main float_of_str int_of_str w argv []
           = write_result w (arg_output_plan a) plan []).
Proof.
  destruct (arguments_cases float_of_str int_of_str argv) as [Hbad|[a Hgood]].
  { left. apply main_bad_arguments. exact Hbad. }
  rewrite (main_good_arguments float_of_str int_of_str w argv a [] Hgood).
  destruct (ET.getroot (et_parse w (arg_gpx_file a))) as [root|e] eqn:Hfile.
  - assert (Hparse : parse_gpx float_of_str (et_parse w) (arg_gpx_file a)
                     = Ret (Some (kept_points float_of_str
                                    (detect_ns (ET.tag root))
                                    (ET.iter root
                                       (nstag (detect_ns (ET.tag root))
                                              "trkpt"))))).
    { unfold parse_gpx. rewrite Hfile, parse_root_kept. reflexivity. }
    destruct (kept_points _ _ _) as [|p pts] eqn:Hpts.
    { right. left. apply pipeline_unusable_input. right. right.
      exists root. split; [exact Hfile|].
      rewrite parse_root_kept, Hpts. reflexivity. }
    destruct (filter_coords_by_bbox (Some (p :: pts)) (arg_lat1 a)
                (arg_lon1 a) (arg_lat2 a) (arg_lon2 a)) as [|q box] eqn:Hbox.
    { right. right. left.
      apply (pipeline_empty_box float_of_str w _ _ _ _ _ _ _ (p :: pts));
        [exact Hparse|discriminate|exact Hbox]. }
    pose proof Hgood as (Hge & H1 & H7 & H2 & Hs & Hrest).
    destruct (pipeline_plan float_of_str w (arg_gpx_file a)
                (arg_output_plan a) (arg_step a) (arg_lat1 a) (arg_lon1 a)
                (arg_lat2 a) (arg_lon2 a) (p :: pts) [] Hparse)
      as (plan & Hplan & Hrun);
      [discriminate|rewrite Hbox; discriminate|exact Hs|].
    do 4 right. exists a, (p :: pts), plan.
    split; [exact Hgood|]. split; [exact Hparse|].
    split; [rewrite Hbox; discriminate|]. split; [exact Hplan|].
    exact Hrun.
  - destruct (is_ParseError e) eqn:Hp.
    { right. left. apply pipeline_unusable_input. left.
      destruct e; try discriminate. exact Hfile. }
    destruct (is_FileNotFoundError e) eqn:Hf.
    { right. left. apply pipeline_unusable_input. right. left.
      destruct e as [|[| | |]| | | | |]; try discriminate. exact Hfile. }
    do 3 right. left. exists e.
    split; [exact (getroot_status _ e Hfile)|].
    apply pipeline_uncaught; assumption.
Qed.

End Outcomes.

(** X18. The exit status of a run is 0, 1, 2 or 5; in particular the exit
    with status 4 after a failed plan construction never happens. *)
Theorem exit_status_range
    (float_of_str : string -> option float) (int_of_str : string -> option Z)
    (w : world) (argv : list string) :
  (run float_of_str int_of_str w argv).1 = 0
  \/ (run float_of_str int_of_str w argv).1 = 1
  \/ (run float_of_str int_of_str w argv).1 = 2
  \/ (run float_of_str int_of_str w argv).1 = 5.
Proof.
  unfold run.
  destruct (main_outcomes float_of_str int_of_str w argv)
    as [H|[H|[H|[(e & He & H)|(a & pts & plan & _ & _ & _ & _ & H)]]]];
    rewrite H; cbn [fst exit_status]; auto.
  unfold write_result.
  destruct (open_error w (arg_output_plan a)); [cbn; auto|].
  destruct (dump_error w (arg_output_plan a)); cbn; auto.
Qed.


Lemma filter_member (pts : list point) (lat1 lon1 lat2 lon2 : float)
    (p : point) :
  p ∈ filter_coords_by_bbox (Some pts) lat1 lon1 lat2 lon2 ->
  p ∈ pts /\ in_bbox lat1 lon1 lat2 lon2 p = true.
Proof.
  rewrite filter_coords_by_bbox_filter, !list_elem_of_In. apply filter_In.
Qed.

(** X20. Whatever plan a run writes, every waypoint of it and its home
    position are at a point of the parsed track that lies inside the
    bounding box given on the command line, at altitude 0.0 and with
    acceptance radius 2.0. *)
Theorem written_plan_inside_box
    (float_of_str : string -> option float) (int_of_str : string -> option Z)
    (w : world) (argv : list string) (out : string) (plan : value) :
  (run float_of_str int_of_str w argv).2 = [(out, plan)] ->
  exists (a : arguments) (pts : list point) (items : list value)
         (p0 : point),
    good_arguments float_of_str int_of_str argv a
    /\ parse_gpx float_of_str (et_parse w) (arg_gpx_file a) = Ret (Some pts)
    /\ plan_items plan = Some items
    /\ (forall item : value, item ∈ items ->
          exists (n : Z) (p : point),
            p ∈ pts
            /\ in_bbox (arg_lat1 a) (arg_lon1 a) (arg_lat2 a) (arg_lon2 a) p
               = true
            /\ item = make_item n (lat_of p) (lon_of p)
                                (S754_zero false) (float_of_Z 2))
    /\ p0 ∈ pts
    /\ in_bbox (arg_lat1 a) (arg_lon1 a) (arg_lat2 a) (arg_lon2 a) p0 = true
    /\ plan_home plan
       = Some (VList [VFloat (lat_of p0); VFloat (lon_of p0);
                      VFloat (S754_zero false)]).
Proof.
  unfold run.
  destruct (main_outcomes float_of_str int_of_str w argv)
    as [H|[H|[H|[(e & He & H)
                |(a & pts & plan' & Hgood & Hparse & Hne & Hplan & H)]]]];
    rewrite H; cbn [snd dumped flat_map]; try discriminate.
  unfold write_result.
  destruct (open_error w (arg_output_plan a)); [discriminate|].
  destruct (dump_error w (arg_output_plan a)); [discriminate|].
  cbn [snd dumped flat_map app]. intros [= <- <-].
  pose proof Hgood as (_ & _ & _ & _ & Hs & _).
  pose proof (filter_member pts (arg_lat1 a) (arg_lon1 a) (arg_lat2 a)
                (arg_lon2 a)) as Hmem.
  destruct (filter_coords_by_bbox (Some pts) (arg_lat1 a) (arg_lon1 a)
              (arg_lat2 a) (arg_lon2 a)) as [|q box]; [contradiction|].
  rewrite create_plan_json_closed in Hplan by exact Hs.
  injection Hplan as <-.
  exists a, pts, (waypoints (S754_zero false) (float_of_Z 2)
                    (every (Z.to_nat (arg_step a)) (q :: box))), q.
  split; [exact Hgood|]. split; [exact Hparse|]. split; [reflexivity|].
  split.
  - intros item Hitem. unfold waypoints in Hitem.
    apply elem_of_lookup_imap_1 in Hitem as (k & p & -> & Hk).
    rewrite every_lookup in Hk by lia.
    destruct (Hmem p (list_elem_of_lookup_2 _ _ _ Hk)) as [Hin Hbox].
    exists (Z.of_nat k + 1), p. split; [exact Hin|]. split; [exact Hbox|].
    reflexivity.
  - destruct (Hmem q (list_elem_of_here _ _)) as [Hin Hbox].
    split; [exact Hin|]. split; [exact Hbox|reflexivity].
Qed.

Lemma written_plan_inside_box_witness :
  (run Literals.float_of_str Literals.int_of_str sample_world
       (sample_argv "track.gpx" "2" "0" "0" "5" "5" "out.plan")).2
  = [("out.plan"%string,
      make_plan [make_item 1 Sample.f1 Sample.f2 Sample.f0 Sample.f2]
                [VFloat Sample.f1; VFloat Sample.f2; VFloat Sample.f0])]
  /\ exists (a : arguments) (pts : list point) (items : list value)
            (p0 : point),
       good_arguments Literals.float_of_str Literals.int_of_str
         (sample_argv "track.gpx" "2" "0" "0" "5" "5" "out.plan") a
       /\ parse_gpx Literals.float_of_str (et_parse sample_world)
                    (arg_gpx_file a) = Ret (Some pts)
       /\ plan_items
            (make_plan [make_item 1 Sample.f1 Sample.f2 Sample.f0 Sample.f2]
                       [VFloat Sample.f1; VFloat Sample.f2; VFloat Sample.f0])
          = Some items
       /\ (forall item : value, item ∈ items ->
             exists (n : Z) (p : point),
               p ∈ pts
               /\ in_bbox (arg_lat1 a) (arg_lon1 a) (arg_lat2 a) (arg_lon2 a)
                          p = true
               /\ item = make_item n (lat_of p) (lon_of p)
                                   (S754_zero false) (float_of_Z 2))
       /\ p0 ∈ pts
       /\ in_bbox (arg_lat1 a) (arg_lon1 a) (arg_lat2 a) (arg_lon2 a) p0
          = true
       /\ plan_home
            (make_plan [make_item 1 Sample.f1 Sample.f2 Sample.f0 Sample.f2]
                       [VFloat Sample.f1; VFloat Sample.f2; VFloat Sample.f0])
          = Some (VList [VFloat (lat_of p0); VFloat (lon_of p0);
                         VFloat (S754_zero false)]).
Proof.
  split; [vm_compute; reflexivity|].
  apply (written_plan_inside_box Literals.float_of_str Literals.int_of_str
           sample_world
           (sample_argv "track.gpx" "2" "0" "0" "5" "5" "out.plan")
           "out.plan").
  vm_compute. reflexivity.
Defined.

(** X21. Only the words at positions 1 to 7 of the command line matter:
    the program name and any further words do not change the run. *)
Theorem run_uses_seven_arguments
    (float_of_str : string -> option float) (int_of_str : string -> option Z)
    (w : world) (a0 b0 a1 a2 a3 a4 a5 a6 a7 : string)
    (rest rest' : list string) :
  run float_of_str int_of_str w
      (a0 :: a1 :: a2 :: a3 :: a4 :: a5 :: a6 :: a7 :: rest)
  = run float_of_str int_of_str w
        (b0 :: a1 :: a2 :: a3 :: a4 :: a5 :: a6 :: a7 :: rest').
Proof.
  unfold run. rewrite !main_eight, !read_numbers_eight. reflexivity.
Qed.

Lemma every_one {A} (l : list A) : every 1 l = l.
Proof.
  apply list_eq. intros k. rewrite every_lookup by lia.
  f_equal. lia.
Qed.

(** X22. With stride 1 nothing is dropped: the plan has one waypoint for
    each point of the list, in order and numbered from 1. *)
Theorem stride_one_keeps_all
    (p0 : point) (rest : list point)
    (default_alt acceptance_radius : float) :
  create_plan_json (Some (p0 :: rest)) 1 default_alt acceptance_radius
  = Ret (Some (make_plan
                 (waypoints default_alt acceptance_radius (p0 :: rest))
                 [VFloat (lat_of p0); VFloat (lon_of p0);
                  VFloat default_alt])).
Proof.
  rewrite create_plan_json_closed by lia.
  change (Z.to_nat 1) with 1%nat. rewrite every_one. reflexivity.
Qed.


(** ** Point-level resilience *)






(** The namespaced sample track holds two track points with valid [lat]
    and [lon], and both are read. *)
Example parse_gpx_namespaced_sample :
  length (List.filter (well_formed Literals.float_of_str)
            (track_points Sample.gpx_doc)) = 2%nat
  /\ parse_gpx Literals.float_of_str sample_files "track_ns.gpx"
     = Ret (Some [(Sample.f1, Sample.f2, Sample.f9);
                  (Sample.f3, Sample.f3, Sample.f0)]).
Proof. vm_compute. split; reflexivity. Qed.

